(* Verification of the partner-dashboard relay (src/index.js):
   the GET /partner-dashboard/offers handler, its request validation,
   the list-offers URL, and the concurrent per-offer enrichment joined
   with Promise.all. *)

From Stdlib Require Import String Ascii QArith ZArith Lia.
From stdpp Require Import base list.

Open Scope string_scope.
Set Warnings "-register-all".

(* ------------------------------------------------------------------ *)
(** * JavaScript values as they flow through the handler *)
(* ------------------------------------------------------------------ *)

(** Values produced by [JSON.parse] (upstream bodies) and the objects the
    handler builds; [JUndef] is JavaScript's [undefined]. Objects are
    ordered association lists (the enumeration order of their keys). *)
Inductive jval : Type :=
  | JUndef
  | JNull
  | JBool (b : bool)
  | JNum (q : Q)
  | JStr (s : string)
  | JArr (xs : list jval)
  | JObj (fs : list (string * jval)).

(** JavaScript truthiness: [undefined], [null], [false], [0] and [""]
    are falsy; every object and array is truthy. *)
Definition truthy (v : jval) : bool :=
  match v with
  | JUndef | JNull => false
  | JBool b => b
  | JNum q => negb (Qeq_bool q 0)
  | JStr s => negb (String.eqb s "")
  | JArr _ | JObj _ => true
  end.

(** [a || b] *)
Definition js_or (a b : jval) : jval := if truthy a then a else b.

(** Own-property read on an object: the first binding of [k], else
    [undefined]. *)
Fixpoint obj_get (k : string) (fs : list (string * jval)) : jval :=
  match fs with
  | [] => JUndef
  | (k', v) :: fs' => if String.eqb k k' then v else obj_get k fs'
  end.

(** Property assignment in an object literal: an existing key keeps its
    position and gets the new value, a new key is added at the end. *)
Fixpoint obj_set (k : string) (v : jval) (fs : list (string * jval))
  : list (string * jval) :=
  match fs with
  | [] => [(k, v)]
  | (k', v') :: fs' =>
      if String.eqb k k' then (k', v) :: fs' else (k', v') :: obj_set k v fs'
  end.

(** [v.k] for the property names the handler reads ([offers],
    [network_offer_id], [default_payout], [currency]): none of them is an
    array index or [length], so on arrays, strings, numbers and booleans
    the read gives [undefined]; on [null] and [undefined] it throws a
    TypeError, written [None]. *)
Definition get_prop (v : jval) (k : string) : option jval :=
  match v with
  | JUndef | JNull => None
  | JObj fs => Some (obj_get k fs)
  | _ => Some JUndef
  end.

(** Decimal rendering of a natural number (array and string index keys). *)
Fixpoint digits_aux (fuel n : nat) (acc : string) : string :=
  match fuel with
  | O => acc
  | S f =>
      let acc' := String (ascii_of_nat (48 + n mod 10)) acc in
      if Nat.ltb n 10 then acc' else digits_aux f (n / 10) acc'
  end.

Definition nat_key (n : nat) : string := digits_aux (S n) n "".

Fixpoint indexed {A} (f : A -> jval) (i : nat) (xs : list A)
  : list (string * jval) :=
  match xs with
  | [] => []
  | x :: xs' => (nat_key i, f x) :: indexed f (S i) xs'
  end.

Fixpoint chars (s : string) : list string :=
  match s with
  | EmptyString => []
  | String c s' => String c EmptyString :: chars s'
  end.

(** [...v] inside an object literal: the own enumerable properties of
    [v]; arrays and strings contribute their indices, other primitives
    nothing. *)
Definition spread (v : jval) : list (string * jval) :=
  match v with
  | JObj fs => fs
  | JArr xs => indexed id 0 xs
  | JStr s => indexed JStr 0 (chars s)
  | _ => []
  end.

(** [s.includes(sub)] *)
Fixpoint str_includes (s sub : string) : bool :=
  String.prefix sub s ||
  match s with
  | EmptyString => false
  | String _ s' => str_includes s' sub
  end.

(** [['top', 'latest'].includes(t)] *)
Definition list_includes (xs : list string) (t : string) : bool :=
  existsb (String.eqb t) xs.

(* ------------------------------------------------------------------ *)
(** * The upstream provider and the runtime *)
(* ------------------------------------------------------------------ *)

(** Outcome of a [fetch]: a thrown error (network failure or the
    transport timeout, 5000 ms for the list call and 3000 ms for a detail
    call) or a response with its status, its text and the result of
    parsing it as JSON ([None]: [response.json()] throws). *)
Inductive fetch_result : Type :=
  | FThrow
  | FResp (status : Z) (text : string) (json : option jval).

(** [response.ok] *)
Definition resp_ok (status : Z) : bool := (200 <=? status)%Z && (status <=? 299)%Z.

(** The two upstream calls. A detail call is the URL
    [https://api.eflow.team/v1/networks/offers/${offerId}?affiliate_id=${affiliate_id}],
    identified here by the pair it is built from. *)
Inductive request : Type :=
  | ListOffers (url : string)
  | OfferDetail (offer_id : jval) (affiliate_id : string).

(** The upstream as a (deterministic) function of the request. *)
Definition upstream := request -> fetch_result.

(** What the runtime decides rather than the code: the order in which the
    detail promises settle (indices into the offers array), the
    [NODE_ENV === 'development'] flag, the stack of a caught error and
    [new Date().toISOString()] when the success envelope is built. *)
Record runtime := {
  schedule : list nat;
  dev_mode : bool;
  err_stack : string;
  now : string
}.

(** The query string; each parameter given at most once, so a present
    parameter is a string. *)
Record query := {
  q_type : option string;
  q_affiliate_id : option string
}.

Record response := {
  status : Z;
  body : jval
}.

(* ------------------------------------------------------------------ *)
(** * Promise.all *)
(* ------------------------------------------------------------------ *)

(** How the promise returned by one [offers.map] callback settles. *)
Inductive settled : Type :=
  | Fulfilled (v : jval)
  | Rejected.

Inductive pa_outcome : Type :=
  | PAResolved (vs : list jval)
  | PARejected.

(** The state of a [Promise.all] over [n] promises: the result array
    (its slots start [undefined]), the count of promises still pending,
    and the outcome once the aggregate promise has settled. *)
Record pa_state := {
  pa_values : list jval;
  pa_remaining : nat;
  pa_done : option pa_outcome
}.

Definition pa_init (n : nat) : pa_state :=
  match n with
  | O => {| pa_values := []; pa_remaining := 0; pa_done := Some (PAResolved []) |}
  | _ => {| pa_values := repeat JUndef n; pa_remaining := n; pa_done := None |}
  end.

(** Promise number [i] settles: a fulfilment is stored at index [i] (by
    position, whatever the completion order) and the aggregate resolves
    when the pending count reaches zero; the first rejection rejects the
    aggregate; once settled, later events change nothing. *)
Definition pa_step (results : list settled) (st : pa_state) (i : nat) : pa_state :=
  match pa_done st with
  | Some _ => st
  | None =>
      match results !! i with
      | Some Rejected =>
          {| pa_values := pa_values st; pa_remaining := pa_remaining st;
             pa_done := Some PARejected |}
      | Some (Fulfilled v) =>
          let vs := <[i := v]> (pa_values st) in
          if Nat.eqb (pa_remaining st) 1
          then {| pa_values := vs; pa_remaining := 0;
                  pa_done := Some (PAResolved vs) |}
          else {| pa_values := vs; pa_remaining := pred (pa_remaining st);
                  pa_done := None |}
      | None => st
      end
  end.

(** [await Promise.all(results)] when the promises settle in the order
    [sched]; [None]: still pending. *)
Definition promise_all (sched : list nat) (results : list settled)
  : option pa_outcome :=
  pa_done (fold_left (pa_step results) sched (pa_init (length results))).

(* ------------------------------------------------------------------ *)
(** * The handler of GET /partner-dashboard/offers *)
(* ------------------------------------------------------------------ *)

Definition list_base_url (affiliate_id : string) : string :=
  "https://api.eflow.team/v1/networks/offers?affiliate_id=" ++ affiliate_id ++
  "&limit=10&status=active&visibility=public".

Definition sort_top : string := "&sort_by=payout&sort_direction=desc".
Definition sort_latest : string := "&sort_by=created_at&sort_direction=desc".

(** [let url = ...; if (type === 'top') url += ...; else if ...] *)
Definition list_url (affiliate_id : string) (type : option string) : string :=
  let url := list_base_url affiliate_id in
  match type with
  | Some "top" => url ++ sort_top
  | Some "latest" => url ++ sort_latest
  | _ => url
  end.

(** The object literal [{...offer, default_payout: ..., currency: ...}]. *)
Definition merge_detail (offer dp cur : jval) : jval :=
  JObj (obj_set "currency" (js_or cur (JStr ""))
          (obj_set "default_payout" (js_or dp (JStr "N/A")) (spread offer))).

(** Whether the string conversion of a template literal, [`${v}`], throws
    for a JSON value [v]. An object with an own [toString] key has a
    non-callable [toString], and its [valueOf] (own and non-callable, or
    [Object.prototype.valueOf] returning the object) gives no primitive
    either: TypeError. An array converts through [join], which converts
    each element ([null] and [undefined] give the empty string). Other
    objects give ["[object Object]"]; primitives never throw. *)
Fixpoint tostring_throws (v : jval) : bool :=
  match v with
  | JObj fs => existsb (fun kv => String.eqb (fst kv) "toString") fs
  | JArr xs => existsb tostring_throws xs
  | _ => false
  end.

(** The [offers.map(async (offer) => ...)] callback: how its promise
    settles, and the upstream calls it issues. Reading
    [offer.network_offer_id] and building the detail URL with
    [`${offerId}`] happen before the [try], so a throw there rejects
    before any call; everything inside the [try] falls back to [offer]. *)
Definition enrich_offer (up : upstream) (affiliate_id : string) (offer : jval)
  : settled * list request :=
  match get_prop offer "network_offer_id" with
  | None => (Rejected, [])
  | Some offerId =>
      if tostring_throws offerId then (Rejected, []) else
      let rq := OfferDetail offerId affiliate_id in
      let r :=
        match up rq with
        | FThrow => offer
        | FResp st _ js =>
            if negb (resp_ok st) then offer
            else match js with
                 | None => offer
                 | Some detailData =>
                     match get_prop detailData "default_payout" with
                     | None => offer
                     | Some dp =>
                         match get_prop detailData "currency" with
                         | None => offer
                         | Some cur => merge_detail offer dp cur
                         end
                     end
                 end
        end in
      (Fulfilled r, [rq])
  end.

Definition operational_body : jval :=
  JObj [("status", JStr "success");
        ("message", JStr "Partner dashboard backend is operational")].

Definition invalid_affiliate_body (affiliate_id : string) : jval :=
  JObj [("error", JStr "Invalid request");
        ("message", JStr "Valid affiliate_id is required");
        ("details", JObj [("received", JStr affiliate_id);
                          ("expected", JStr "Non-empty string without special characters")])].

(** The double-quote character. *)
Definition dq : string := String (ascii_of_nat 34) EmptyString.

Definition invalid_type_body : jval :=
  JObj [("error", JStr "Invalid request");
        ("message", JStr ("Type must be either " ++ dq ++ "top" ++ dq ++ " or " ++
                          dq ++ "latest" ++ dq ++ " if provided"))].

Definition bad_gateway_body (errorText : string) : jval :=
  JObj [("error", JStr "Bad Gateway");
        ("message", JStr "Failed to fetch offers from Everflow");
        ("details", JStr errorText)].

Definition internal_error_body (rt : runtime) : jval :=
  JObj [("error", JStr "Internal Server Error");
        ("message", JStr "An unexpected error occurred");
        ("details", if dev_mode rt then JStr (err_stack rt) else JUndef)].

Definition success_body (rt : runtime) (enriched : list jval) : jval :=
  JObj [("status", JStr "success");
        ("data", JObj [("offers", JArr enriched);
                       ("count", JNum (inject_Z (Z.of_nat (length enriched))));
                       ("_metadata", JObj [("source", JStr "Everflow API");
                                           ("enrichment", JStr "payout_and_currency");
                                           ("timestamp", JStr (now rt))])])].

Definition reply (st : Z) (b : jval) : option response :=
  Some {| status := st; body := b |}.

(** [offers.map(...)] followed by [await Promise.all(...)] and the
    response built from it; also the detail calls issued by the map. *)
Definition enrich_all (up : upstream) (rt : runtime) (affiliate_id : string)
    (offers : list jval) : option response * list request :=
  let per := map (enrich_offer up affiliate_id) offers in
  let calls := concat (map snd per) in
  match promise_all (schedule rt) (map fst per) with
  | None => (None, calls)
  | Some PARejected => (reply 500 (internal_error_body rt), calls)
  | Some (PAResolved enriched) => (reply 200 (success_body rt enriched), calls)
  end.

(** From the list-offers call on ([try { ... } catch ...]): the list call,
    the 502 branch, parsing, [data.offers || []] and the enrichment. The
    result also lists the upstream calls issued, in order. *)
Definition fetch_offers (up : upstream) (rt : runtime) (affiliate_id url : string)
  : option response * list request :=
  let list_call := ListOffers url in
  let '(r, calls) :=
    match up list_call with
    | FThrow => (reply 500 (internal_error_body rt), [])
    | FResp st errorText js =>
        if negb (resp_ok st) then (reply 502 (bad_gateway_body errorText), [])
        else
          match js with
          | None => (reply 500 (internal_error_body rt), [])
          | Some data =>
              match get_prop data "offers" with
              | None => (reply 500 (internal_error_body rt), [])
              | Some o =>
                  match js_or o (JArr []) with
                  | JArr offers => enrich_all up rt affiliate_id offers
                  (* [offers.map] is not a function *)
                  | _ => (reply 500 (internal_error_body rt), [])
                  end
              end
          end
    end in
  (r, list_call :: calls).

(** The route handler. The result is the response sent ([None]: none
    yet, the handler is still awaiting) and the upstream calls issued, in
    the order they are issued. *)
Definition handle (up : upstream) (rt : runtime) (q : query)
  : option response * list request :=
  match q_affiliate_id q with
  | None | Some "" => (reply 200 operational_body, [])
  | Some affiliate_id =>
      if str_includes affiliate_id "{"
      then (reply 400 (invalid_affiliate_body affiliate_id), [])
      else
        let type_rejected :=
          match q_type q with
          | Some t => truthy (JStr t) && negb (list_includes ["top"; "latest"] t)
          | None => false
          end in
        if type_rejected then (reply 400 invalid_type_body, [])
        else fetch_offers up rt affiliate_id (list_url affiliate_id (q_type q))
  end.

(** Reading a field of a response body. *)
Definition body_field (r : option response) (k : string) : jval :=
  match r with
  | Some {| body := JObj fs |} => obj_get k fs
  | _ => JUndef
  end.

Definition resp_status (r : option response) : option Z :=
  option_map status r.

(* ------------------------------------------------------------------ *)
(** * Reference descriptions used in the statements *)
(* ------------------------------------------------------------------ *)

Definition settled_value (r : settled) : jval :=
  match r with Fulfilled v => v | Rejected => JUndef end.

Definition is_rejected (r : option settled) : bool :=
  match r with Some Rejected => true | _ => false end.

(** What [Promise.all] yields once the promises [0 .. n-1] have settled,
    each once, in any order: rejected if one of them rejects, otherwise
    the values by position once every promise is among them. *)
Definition pa_expected (n : nat) (results : list settled) : option pa_outcome :=
  if existsb (fun j => is_rejected (results !! j)) (seq 0 n) then Some PARejected
  else if Nat.leb (length results) n
       then Some (PAResolved (map settled_value results))
       else None.

(** The two detail fields read by the callback when its detail lookup
    succeeds: an ok status and a body that parses to a value other than
    [null]. *)
Definition detail_fields (up : upstream) (affiliate_id : string) (offer : jval)
  : option (jval * jval) :=
  match get_prop offer "network_offer_id" with
  | None => None
  | Some offerId =>
      match up (OfferDetail offerId affiliate_id) with
      | FResp st _ (Some d) =>
          if resp_ok st then
            match get_prop d "default_payout", get_prop d "currency" with
            | Some dp, Some cur => Some (dp, cur)
            | _, _ => None
            end
          else None
      | _ => None
      end
  end.

Definition is_object (v : jval) : bool :=
  match v with JObj _ => true | _ => false end.

(** A request that passes the three validation rules. *)
Definition valid_request (q : query) : Prop :=
  exists affiliate_id,
    q_affiliate_id q = Some affiliate_id /\ affiliate_id <> "" /\
    str_includes affiliate_id "{" = false /\
    (q_type q = None \/ q_type q = Some "top" \/ q_type q = Some "latest").

(** The form an offer takes in the response: the merged object when its
    detail lookup succeeds, the offer itself otherwise. *)
Definition enriched_form (up : upstream) (affiliate_id : string) (offer : jval) : jval :=
  match detail_fields up affiliate_id offer with
  | Some (dp, cur) => merge_detail offer dp cur
  | None => offer
  end.

Definition offer_id (offer : jval) : jval :=
  match get_prop offer "network_offer_id" with Some v => v | None => JUndef end.

(** An offer object whose [network_offer_id] converts to a string, so its
    callback gets to the detail call (every number or string id does). *)
Definition offer_ok (o : jval) : bool :=
  is_object o && negb (tostring_throws (offer_id o)).

(** The three accepted values of [type]. *)
Definition type_ok (t : option string) : Prop :=
  t = None \/ t = Some "top" \/ t = Some "latest".

(** The invariant of a [Promise.all] run after the promises listed in [p]
    have settled. *)
Section PromiseAllInvariant.

Variable rs : list settled.

Local Abbreviation L := (length rs).

Definition rejected_in (p : list nat) : bool :=
  existsb (fun j => is_rejected (rs !! j)) p.

Definition full (p : list nat) : Prop := forall j, j < L -> In j p.

Definition cnt (p : list nat) : nat := length (List.filter (fun j => Nat.ltb j L) p).

Definition partial (p : list nat) : list jval :=
  imap (fun j r => if existsb (Nat.eqb j) p then settled_value r else JUndef) rs.

Definition pa_inv (p : list nat) (st : pa_state) : Prop :=
  (rejected_in p = true -> pa_done st = Some PARejected) /\
  (rejected_in p = false -> full p ->
     pa_done st = Some (PAResolved (map settled_value rs))) /\
  (rejected_in p = false -> ~ full p ->
     pa_done st = None /\ pa_remaining st = L - cnt p /\ pa_values st = partial p).

End PromiseAllInvariant.

(* ------------------------------------------------------------------ *)
(** * Routing (Express) *)
(* ------------------------------------------------------------------ *)

(** A GET request as the application sees it: [req.path], the
    [x-api-key] header and the query. Requests carry no body. *)
Record http_request := {
  req_path : string;
  req_api_key : option string;
  req_query : query
}.

Definition ascii_lower (c : ascii) : ascii :=
  let n := nat_of_ascii c in
  if Nat.leb 65 n && Nat.leb n 90 then ascii_of_nat (n + 32) else c.

Fixpoint str_lower (s : string) : string :=
  match s with
  | EmptyString => EmptyString
  | String c s' => String (ascii_lower c) (str_lower s')
  end.

(** Express matches a literal route path case-insensitively and with an
    optional trailing slash (its defaults: case-sensitive and strict
    routing are off). [route] is written in lower case. *)
Definition route_match (route path : string) : bool :=
  String.eqb (str_lower path) route || String.eqb (str_lower path) (route ++ "/").

(* ------------------------------------------------------------------ *)
(** * src/index.js: the application *)
(* ------------------------------------------------------------------ *)

(** [GET /health]; [process.uptime()] is supplied by the runtime. *)
Definition health_body (rt : runtime) (uptime : Q) : jval :=
  JObj [("status", JStr "healthy");
        ("timestamp", JStr (now rt));
        ("uptime", JNum uptime);
        ("database", JStr "connected");
        ("everflow_api", JStr "reachable")].

Definition not_found_body (path : string) : jval :=
  JObj [("error", JStr "Not Found");
        ("message", JStr ("The requested resource " ++ path ++ " was not found"))].

(** The routes in order, then the 404 handler. *)
Definition app_main (up : upstream) (rt : runtime) (uptime : Q) (req : http_request)
  : option response * list request :=
  if route_match "/health" (req_path req) then (reply 200 (health_body rt uptime), [])
  else if route_match "/partner-dashboard/offers" (req_path req) then handle up rt (req_query req)
  else (reply 404 (not_found_body (req_path req)), []).

(* ------------------------------------------------------------------ *)
(** * src/unnamed/part_000: the API-key variant *)
(* ------------------------------------------------------------------ *)

Definition v0_unauthorized_body : jval := JObj [("error", JStr "Unauthorized")].
Definition v0_invalid_affiliate_body : jval := JObj [("error", JStr "Valid affiliate_id is required")].
Definition v0_internal_body : jval := JObj [("error", JStr "Internal server error")].

Definition v0_upstream_failed_body (text : string) : jval :=
  JObj [("error", JStr "Everflow API request failed"); ("details", JStr text)].

(** The key-check middleware: [true] when the request goes on ([next()]).
    [backend_key] is [process.env.BACKEND_API_KEY] ([None]: unset). *)
Definition key_gate (backend_key : option string) (req : http_request) : bool :=
  if String.prefix "/partner-dashboard/offers" (req_path req) then
    match req_api_key req with
    | None => false
    | Some k =>
        if String.eqb k "" then false
        else match backend_key with
             | None => false                 (* a string is !== undefined *)
             | Some b => String.eqb k b
             end
    end
  else true.

Definition enrich_all_v0 (up : upstream) (rt : runtime) (affiliate_id : string)
    (offers : list jval) : option response * list request :=
  let per := map (enrich_offer up affiliate_id) offers in
  let calls := concat (map snd per) in
  match promise_all (schedule rt) (map fst per) with
  | None => (None, calls)
  | Some PARejected => (reply 500 v0_internal_body, calls)
  | Some (PAResolved enriched) => (reply 200 (JObj [("offers", JArr enriched)]), calls)
  end.

(** The list call: the text is read first, a non-success status is passed
    through, then [JSON.parse(text)] ([json] of the response). *)
Definition fetch_offers_v0 (up : upstream) (rt : runtime) (affiliate_id url : string)
  : option response * list request :=
  let list_call := ListOffers url in
  let '(r, calls) :=
    match up list_call with
    | FThrow => (reply 500 v0_internal_body, [])
    | FResp st text js =>
        if negb (resp_ok st) then (reply st (v0_upstream_failed_body text), [])
        else
          match js with
          | None => (reply 500 v0_internal_body, [])
          | Some data =>
              match get_prop data "offers" with
              | None => (reply 500 v0_internal_body, [])
              | Some o =>
                  match js_or o (JArr []) with
                  | JArr offers => enrich_all_v0 up rt affiliate_id offers
                  | _ => (reply 500 v0_internal_body, [])
                  end
              end
          end
    end in
  (r, list_call :: calls).

Definition handle_v0 (up : upstream) (rt : runtime) (q : query)
  : option response * list request :=
  match q_affiliate_id q with
  | None | Some "" => (reply 400 v0_invalid_affiliate_body, [])
  | Some affiliate_id =>
      if str_includes affiliate_id "{" then (reply 400 v0_invalid_affiliate_body, [])
      else fetch_offers_v0 up rt affiliate_id (list_url affiliate_id (q_type q))
  end.

(** The middleware chain for a GET request; [None]: no route of the
    application matches and Express's default 404 answers. *)
Definition app_v0 (backend_key : option string) (up : upstream) (rt : runtime)
    (req : http_request) : option (option response * list request) :=
  if negb (key_gate backend_key req) then Some (reply 403 v0_unauthorized_body, [])
  else if route_match "/partner-dashboard/offers" (req_path req)
  then Some (handle_v0 up rt (req_query req))
  else None.

(* ------------------------------------------------------------------ *)
(** * A concrete upstream, used by the examples and witnesses *)
(* ------------------------------------------------------------------ *)

Definition offer1 : jval := JObj [("network_offer_id", JNum 1); ("name", JStr "A")].
Definition offer2 : jval := JObj [("network_offer_id", JNum 2); ("name", JStr "B")].

(** Lists [offer1; offer2]; the detail of offer 1 succeeds, the detail
    call of offer 2 throws (network error). *)
Definition sample_up : upstream :=
  fun rq =>
    match rq with
    | ListOffers _ => FResp 200 "" (Some (JObj [("offers", JArr [offer1; offer2])]))
    | OfferDetail (JNum q) _ =>
        if Qeq_bool q 1
        then FResp 200 "" (Some (JObj [("default_payout", JNum 5); ("currency", JStr "USD")]))
        else FThrow
    | OfferDetail _ _ => FThrow
    end.

(** The list call fails with HTTP 500. *)
Definition failing_up : upstream :=
  fun rq => FResp 500 "boom" None.

(** Every detail call answers 200 with a zero payout. *)
Definition zero_payout_up : upstream :=
  fun rq => FResp 200 "" (Some (JObj [("default_payout", JNum 0); ("currency", JStr "USD")])).

(** Every call throws. *)
Definition throwing_up : upstream := fun rq => FThrow.

(** The list call answers 200 with a body that has no offers field. *)
Definition no_offers_up : upstream :=
  fun rq => FResp 200 "{}" (Some (JObj [])).

(** The list holds [offer1], [null] and [offer2]. *)
Definition null_offer_up : upstream :=
  fun rq =>
    match rq with
    | ListOffers _ => FResp 200 "" (Some (JObj [("offers", JArr [offer1; JNull; offer2])]))
    | OfferDetail _ _ => FThrow
    end.

Definition rt_at (sched : list nat) (t : string) : runtime :=
  {| schedule := sched; dev_mode := false; err_stack := ""; now := t |}.

Definition q_af123 (t : option string) : query :=
  {| q_type := t; q_affiliate_id := Some "af123" |}.


(* ------------------------------------------------------------------ *)
(** * Examples *)
(* ------------------------------------------------------------------ *)

Example sample_run :
  handle sample_up (rt_at [1; 0] "T") (q_af123 (Some "top")) =
  (reply 200 (success_body (rt_at [1; 0] "T")
                [JObj [("network_offer_id", JNum 1); ("name", JStr "A");
                       ("default_payout", JNum 5); ("currency", JStr "USD")];
                 offer2]),
   [ListOffers (list_url "af123" (Some "top"));
    OfferDetail (JNum 1) "af123"; OfferDetail (JNum 2) "af123"]).
Proof. reflexivity. Qed.

Example sample_url :
  list_url "af123" (Some "latest") =
  "https://api.eflow.team/v1/networks/offers?affiliate_id=af123&limit=10&status=active&visibility=public&sort_by=created_at&sort_direction=desc".
Proof. reflexivity. Qed.

Example sample_pending :
  fst (handle sample_up (rt_at [0] "T") (q_af123 None)) = None.
Proof. reflexivity. Qed.

(* ------------------------------------------------------------------ *)
(** * Promise.all associates results by position *)
(* ------------------------------------------------------------------ *)

Section PromiseAll.

Variable rs : list settled.

Local Abbreviation L := (length rs).

Local Abbreviation rejected_in := (rejected_in rs).
Local Abbreviation full := (full rs).
Local Abbreviation cnt := (cnt rs).
Local Abbreviation partial := (partial rs).
Local Abbreviation pa_inv := (pa_inv rs).

Lemma filter_lt_incl p : incl (List.filter (fun j => Nat.ltb j L) p) (seq 0 L).
Proof.
  intros j Hj. apply filter_In in Hj as [_ Hj].
  apply in_seq. apply Nat.ltb_lt in Hj. lia.
Qed.

Lemma cnt_le p : List.NoDup p -> cnt p <= L.
Proof.
  intros Hnd. unfold cnt.
  pose proof (List.NoDup_incl_length (List.NoDup_filter _ Hnd) (filter_lt_incl p)) as H.
  rewrite length_seq in H. exact H.
Qed.

Lemma full_cnt p : List.NoDup p -> (full p <-> cnt p = L).
Proof.
  intros Hnd. split.
  - intros Hf. apply Nat.le_antisymm; [apply cnt_le; exact Hnd|].
    assert (Hi : incl (seq 0 L) (List.filter (fun j => Nat.ltb j L) p)).
    { intros j Hj. apply in_seq in Hj. apply filter_In. split.
      - apply Hf. lia.
      - apply Nat.ltb_lt. lia. }
    pose proof (List.NoDup_incl_length (seq_NoDup L 0) Hi) as H.
    rewrite length_seq in H. exact H.
  - intros Hc j Hj.
    assert (Hin : In j (List.filter (fun j => Nat.ltb j L) p)).
    { assert (Hle : length (seq 0 L) <= length (List.filter (fun j => Nat.ltb j L) p)).
      { unfold cnt in Hc. rewrite Hc, length_seq. lia. }
      apply (List.NoDup_length_incl (List.NoDup_filter _ Hnd) Hle (filter_lt_incl p)).
      apply in_seq. lia. }
    apply filter_In in Hin. tauto.
Qed.

Lemma repeat_lookup (x : jval) n j :
  repeat x n !! j = if Nat.ltb j n then Some x else None.
Proof.
  revert j. induction n as [|n IH]; intros [|j]; simpl; try reflexivity.
  rewrite IH. reflexivity.
Qed.

Lemma partial_nil : partial [] = repeat JUndef L.
Proof.
  apply list_eq. intros j. unfold partial.
  rewrite list_lookup_imap, repeat_lookup.
  destruct (rs !! j) eqn:E; simpl.
  - apply lookup_lt_Some in E. fold L in E.
    destruct (Nat.ltb_spec j L); [reflexivity | lia].
  - apply lookup_ge_None in E. fold L in E.
    destruct (Nat.ltb_spec j L); [lia | reflexivity].
Qed.

Lemma existsb_eqb_app p i j :
  existsb (Nat.eqb j) (p ++ [i]) = existsb (Nat.eqb j) p || Nat.eqb j i.
Proof. rewrite existsb_app. simpl. rewrite orb_false_r. reflexivity. Qed.

Lemma partial_snoc p i r :
  rs !! i = Some r ->
  partial (p ++ [i]) = <[i := settled_value r]> (partial p).
Proof.
  intros Hi. apply list_eq. intros j. unfold partial.
  destruct (Nat.eq_dec i j) as [->|Hne].
  - rewrite list_lookup_insert_eq.
    + rewrite list_lookup_imap, Hi. simpl.
      rewrite existsb_eqb_app, Nat.eqb_refl, orb_true_r. reflexivity.
    + rewrite length_imap. eapply lookup_lt_Some. exact Hi.
  - rewrite list_lookup_insert_ne by exact Hne.
    rewrite !list_lookup_imap.
    destruct (rs !! j); simpl; [|reflexivity].
    rewrite existsb_eqb_app.
    destruct (Nat.eqb_spec j i); [congruence|].
    rewrite orb_false_r. reflexivity.
Qed.

Lemma partial_full p :
  full p -> partial p = map settled_value rs.
Proof.
  intros Hf. apply list_eq. intros j. unfold partial.
  rewrite list_lookup_imap, list_lookup_fmap.
  destruct (rs !! j) eqn:E; simpl; [|reflexivity].
  assert (Hj : In j p).
  { apply Hf. apply lookup_lt_Some in E. exact E. }
  replace (existsb (Nat.eqb j) p) with true; [reflexivity|].
  symmetry. apply existsb_exists. exists j. split; [exact Hj | apply Nat.eqb_refl].
Qed.

Lemma rejected_in_snoc p i :
  rejected_in (p ++ [i]) = rejected_in p || is_rejected (rs !! i).
Proof. unfold rejected_in. rewrite existsb_app. simpl. rewrite orb_false_r. reflexivity. Qed.

Lemma cnt_snoc p i : cnt (p ++ [i]) = cnt p + (if Nat.ltb i L then 1 else 0).
Proof.
  unfold cnt. rewrite List.filter_app, length_app. simpl.
  destruct (Nat.ltb i L); reflexivity.
Qed.

Lemma nodup_snoc (p : list nat) (i : nat) : List.NoDup (p ++ [i]) -> List.NoDup p /\ ~ In i p.
Proof.
  induction p as [|a p IH]; simpl; intros Hnd.
  - split; [constructor | tauto].
  - inversion Hnd as [|? ? Ha Hnd']; subst.
    destruct (IH Hnd') as [H1 H2]. split.
    + constructor; [|exact H1]. intros Hin. apply Ha. apply in_or_app. left. exact Hin.
    + intros [->|Hin]; [apply Ha; apply in_or_app; right; left; reflexivity | tauto].
Qed.

Lemma pa_inv_init : pa_inv [] (pa_init L).
Proof.
  unfold pa_inv. split; [discriminate|]. split.
  - intros _ Hf. destruct (length rs) as [|m] eqn:EL.
    + apply length_zero_iff_nil in EL. rewrite EL. reflexivity.
    + exfalso. apply (Hf 0). lia.
  - intros _ Hnf. destruct (length rs) as [|m] eqn:EL.
    + exfalso. apply Hnf. intros j Hj. lia.
    + simpl. repeat split. rewrite partial_nil, EL. reflexivity.
Qed.

Lemma pa_inv_step (p : list nat) (i : nat) (st : pa_state) :
  List.NoDup (p ++ [i]) -> pa_inv p st -> pa_inv (p ++ [i]) (pa_step rs st i).
Proof.
  intros Hnd [Hrej [Hres Hpend]].
  destruct (nodup_snoc p i Hnd) as [Hndp Hni].
  unfold pa_inv. rewrite rejected_in_snoc.
  destruct (rejected_in p) eqn:Er.
  - (* already rejected *)
    unfold pa_step. rewrite (Hrej eq_refl). simpl.
    split; [intros _; exact (Hrej eq_refl)|]. split; discriminate.
  - simpl. destruct (Nat.eq_dec (cnt p) L) as [Hc|Hc].
    + (* already resolved: i is not an index of [rs] *)
      assert (Hf : full p) by (apply full_cnt; assumption).
      assert (HiL : L <= i).
      { destruct (Nat.lt_ge_cases i L) as [Hlt|Hge]; [|exact Hge].
        exfalso. apply Hni. apply Hf. exact Hlt. }
      assert (Hri : rs !! i = None) by (apply lookup_ge_None; exact HiL).
      rewrite Hri. simpl.
      unfold pa_step. rewrite (Hres eq_refl Hf).
      assert (Hf' : full (p ++ [i])).
      { intros j Hj. apply in_or_app. left. apply Hf. exact Hj. }
      split; [discriminate|]. split.
      * intros _ _. exact (Hres eq_refl Hf).
      * intros _ Hnf. exfalso. exact (Hnf Hf').
    + assert (Hnf : ~ full p) by (rewrite full_cnt by assumption; exact Hc).
      destruct (Hpend eq_refl Hnf) as [Hd [Hrem Hval]].
      pose proof (cnt_le p Hndp) as Hle.
      unfold pa_step. rewrite Hd.
      destruct (rs !! i) as [[v|]|] eqn:Ei; simpl.
      * (* fulfilled *)
        assert (HiL : i < L) by (eapply lookup_lt_Some; exact Ei).
        assert (Hcs : cnt (p ++ [i]) = cnt p + 1).
        { rewrite cnt_snoc. destruct (Nat.ltb_spec i L); [reflexivity | lia]. }
        rewrite Hrem, Hval.
        replace (<[i:=v]> (partial p)) with (partial (p ++ [i]))
          by (rewrite (partial_snoc p i (Fulfilled v) Ei); reflexivity).
        destruct (Nat.eqb_spec (L - cnt p) 1) as [H1|H1].
        -- assert (Hf' : full (p ++ [i])) by (apply full_cnt; [exact Hnd | lia]).
           split; [discriminate|]. split.
           ++ intros _ _. simpl. rewrite partial_full by exact Hf'. reflexivity.
           ++ intros _ Hnf'. exfalso. exact (Hnf' Hf').
        -- assert (Hnf' : ~ full (p ++ [i])).
           { rewrite full_cnt by exact Hnd. lia. }
           split; [discriminate|]. split.
           ++ intros _ Hf'. exfalso. exact (Hnf' Hf').
           ++ intros _ _. simpl. repeat split. lia.
      * (* rejected *)
        split; [reflexivity|]. split; discriminate.
      * (* no promise at index i *)
        assert (HiL : L <= i) by (apply lookup_ge_None; exact Ei).
        assert (Hnf' : ~ full (p ++ [i])).
        { intros Hf'. apply Hnf. intros j Hj.
          destruct (in_app_or _ _ _ (Hf' j Hj)) as [H|[H|[]]]; [exact H | lia]. }
        assert (Hcs : cnt (p ++ [i]) = cnt p).
        { rewrite cnt_snoc. destruct (Nat.ltb_spec i L); [lia | lia]. }
        split; [discriminate|]. split.
        -- intros _ Hf'. exfalso. exact (Hnf' Hf').
        -- intros _ _. rewrite Hd, Hrem, Hval, Hcs. repeat split.
           apply list_eq. intros j. unfold partial. rewrite !list_lookup_imap.
           destruct (rs !! j) eqn:Ej; simpl; [|reflexivity].
           rewrite existsb_eqb_app.
           destruct (Nat.eqb_spec j i) as [->|]; [congruence|].
           rewrite orb_false_r. reflexivity.
Qed.

Lemma pa_inv_fold (p : list nat) :
  List.NoDup p -> pa_inv p (fold_left (pa_step rs) p (pa_init L)).
Proof.
  induction p as [|i p IH] using rev_ind; intros Hnd.
  - exact pa_inv_init.
  - rewrite fold_left_app. simpl.
    apply pa_inv_step; [exact Hnd|].
    apply IH. apply (nodup_snoc p i Hnd).
Qed.

Lemma existsb_perm (f : nat -> bool) l l' :
  Permutation l l' -> existsb f l = existsb f l'.
Proof.
  induction 1; simpl.
  - reflexivity.
  - rewrite IHPermutation. reflexivity.
  - rewrite !orb_assoc, (orb_comm (f y)). reflexivity.
  - congruence.
Qed.

(** Whatever the completion order, [Promise.all] over promises that each
    settle once yields the same outcome, the values stored by position. *)
Lemma promise_all_perm (n : nat) (s : list nat) :
  Permutation s (seq 0 n) -> promise_all s rs = pa_expected n rs.
Proof.
  intros Hp.
  assert (Hnd : List.NoDup s).
  { apply (Permutation_NoDup (Permutation_sym Hp)). apply List.seq_NoDup. }
  destruct (pa_inv_fold s Hnd) as [Hrej [Hres Hpend]].
  unfold promise_all, pa_expected.
  replace (existsb (fun j => is_rejected (rs !! j)) (seq 0 n)) with (rejected_in s)
    by (apply existsb_perm; exact Hp).
  assert (Hfull : full s <-> L <= n).
  { split.
    - intros Hf. destruct (Nat.le_gt_cases L n) as [H|H]; [exact H|].
      exfalso. specialize (Hf n H). apply (Permutation_in _ Hp) in Hf.
      apply in_seq in Hf. lia.
    - intros H j Hj. apply (Permutation_in _ (Permutation_sym Hp)).
      apply in_seq. lia. }
  destruct (rejected_in s) eqn:Er; [exact (Hrej eq_refl)|].
  destruct (Nat.leb_spec L n) as [H|H].
  - exact (Hres eq_refl (proj2 Hfull H)).
  - apply Hpend; [reflexivity|]. rewrite Hfull. lia.
Qed.

End PromiseAll.

(* ------------------------------------------------------------------ *)
(** * The success path of the handler *)
(* ------------------------------------------------------------------ *)

Lemma enrich_offer_object (up : upstream) (aff : string) (o : jval) :
  offer_ok o = true ->
  enrich_offer up aff o = (Fulfilled (enriched_form up aff o), [OfferDetail (offer_id o) aff]).
Proof.
  intros Ho. destruct o; try discriminate.
  unfold offer_ok, offer_id in Ho. simpl in Ho. apply negb_true_iff in Ho.
  unfold enrich_offer, enriched_form, detail_fields, offer_id. simpl. rewrite Ho.
  destruct (up _) as [|st tx [d|]]; simpl; try reflexivity;
    destruct (resp_ok st); simpl; try reflexivity.
  destruct d; reflexivity.
Qed.

Lemma map_enrich_objects (up : upstream) (aff : string) (offers : list jval) :
  forallb offer_ok offers = true ->
  map (enrich_offer up aff) offers =
  map (fun o => (Fulfilled (enriched_form up aff o), [OfferDetail (offer_id o) aff])) offers.
Proof.
  induction offers as [|o offers IH]; simpl; [reflexivity|].
  intros H. apply andb_prop in H as [H1 H2].
  rewrite enrich_offer_object by exact H1. rewrite IH by exact H2. reflexivity.
Qed.

Lemma concat_singletons {A B} (f : A -> B) (l : list A) :
  concat (map (fun x => [f x]) l) = map f l.
Proof. induction l as [|x l IH]; simpl; [reflexivity|]. rewrite IH. reflexivity. Qed.

Lemma no_rejected_fulfilled (vs : list jval) (n : nat) :
  existsb (fun j => is_rejected (map Fulfilled vs !! j)) (seq 0 n) = false.
Proof.
  apply not_true_iff_false. intros H.
  apply existsb_exists in H as [j [_ Hj]].
  rewrite list_lookup_fmap in Hj.
  destruct (vs !! j); discriminate.
Qed.

Lemma promise_all_fulfilled (vs : list jval) (n : nat) (s : list nat) :
  Permutation s (seq 0 n) -> length vs <= n ->
  promise_all s (map Fulfilled vs) = Some (PAResolved vs).
Proof.
  intros Hp Hle. rewrite (promise_all_perm _ n s Hp).
  unfold pa_expected. rewrite no_rejected_fulfilled, length_map.
  destruct (Nat.leb_spec (length vs) n); [|lia].
  rewrite map_map. simpl. rewrite map_id. reflexivity.
Qed.

Lemma handle_valid (up : upstream) (rt : runtime) (q : query) (aff : string) :
  q_affiliate_id q = Some aff -> aff <> "" -> str_includes aff "{" = false ->
  type_ok (q_type q) ->
  handle up rt q = fetch_offers up rt aff (list_url aff (q_type q)).
Proof.
  intros Ha Hne Hbr Ht. unfold handle. rewrite Ha.
  destruct aff as [|c s0]; [congruence|].
  rewrite Hbr.
  destruct Ht as [Ht|[Ht|Ht]]; rewrite Ht; reflexivity.
Qed.

(** A request that passes validation and whose list call succeeds with an
    array of offer objects whose ids convert to strings gets 200 and the offers in their list order,
    each in its enriched form, once the detail promises have all settled,
    in whatever order. *)
Lemma handle_success (up : upstream) (rt : runtime) (q : query) (aff : string)
    (st : Z) (txt : string) (data : jval) (offers : list jval) (n : nat) :
  q_affiliate_id q = Some aff -> aff <> "" -> str_includes aff "{" = false ->
  type_ok (q_type q) ->
  up (ListOffers (list_url aff (q_type q))) = FResp st txt (Some data) ->
  resp_ok st = true ->
  get_prop data "offers" = Some (JArr offers) ->
  forallb offer_ok offers = true ->
  Permutation (schedule rt) (seq 0 n) -> length offers <= n ->
  handle up rt q =
  (reply 200 (success_body rt (map (enriched_form up aff) offers)),
   ListOffers (list_url aff (q_type q)) ::
     map (fun o => OfferDetail (offer_id o) aff) offers).
Proof.
  intros Ha Hne Hbr Ht Hup Hok Hof Hobj Hp Hle.
  rewrite (handle_valid up rt q aff Ha Hne Hbr Ht).
  unfold fetch_offers. rewrite Hup, Hok. simpl. rewrite Hof. simpl.
  unfold enrich_all.
  rewrite (map_enrich_objects up aff offers Hobj), !map_map. simpl.
  rewrite <- (map_map (enriched_form up aff) Fulfilled).
  rewrite (promise_all_fulfilled _ n _ Hp) by (rewrite length_map; exact Hle).
  rewrite (concat_singletons (fun o => OfferDetail (offer_id o) aff)).
  reflexivity.
Qed.

(* ------------------------------------------------------------------ *)
(** * Objects and strings *)
(* ------------------------------------------------------------------ *)

Lemma obj_get_set_eq (k : string) (v : jval) (fs : list (string * jval)) :
  obj_get k (obj_set k v fs) = v.
Proof.
  induction fs as [|[k' v'] fs IH]; simpl.
  - rewrite String.eqb_refl. reflexivity.
  - destruct (String.eqb_spec k k') as [->|Hne]; simpl.
    + rewrite String.eqb_refl. reflexivity.
    + rewrite (proj2 (String.eqb_neq k k') Hne). exact IH.
Qed.

Lemma obj_get_set_ne (k k0 : string) (v : jval) (fs : list (string * jval)) :
  k0 <> k -> obj_get k0 (obj_set k v fs) = obj_get k0 fs.
Proof.
  intros Hne. induction fs as [|[k' v'] fs IH]; simpl.
  - rewrite (proj2 (String.eqb_neq k0 k) Hne). reflexivity.
  - destruct (String.eqb_spec k k') as [->|Hne']; simpl.
    + rewrite (proj2 (String.eqb_neq k0 k') Hne). reflexivity.
    + destruct (String.eqb k0 k'); [reflexivity | exact IH].
Qed.

Lemma keys_set (k k0 : string) (v : jval) (fs : list (string * jval)) :
  In k0 (map fst (obj_set k v fs)) <-> In k0 (map fst fs) \/ k0 = k.
Proof.
  induction fs as [|[k' v'] fs IH]; simpl.
  - intuition congruence.
  - destruct (String.eqb_spec k k') as [->|Hne]; simpl.
    + intuition congruence.
    + rewrite IH. tauto.
Qed.

Lemma prefix_app (s t : string) : String.prefix s (s ++ t) = true.
Proof.
  induction s as [|c s IH]; simpl; [destruct t; reflexivity|].
  destruct (ascii_dec c c); [exact IH | congruence].
Qed.

Lemma includes_app_l (s t sub : string) :
  str_includes t sub = true -> str_includes (s ++ t) sub = true.
Proof.
  intros H. induction s as [|c s IH]; simpl; [exact H|].
  rewrite IH. apply orb_true_r.
Qed.

Lemma prefix_app_r (a b t : string) :
  String.prefix a b = true -> String.prefix a (b ++ t) = true.
Proof.
  revert b. induction a as [|c a IH]; intros b H.
  - destruct (b ++ t); reflexivity.
  - destruct b as [|c' b]; [discriminate|]. simpl in *.
    destruct (ascii_dec c c'); [exact (IH b H) | discriminate].
Qed.

Lemma includes_app_r (s t sub : string) :
  str_includes s sub = true -> str_includes (s ++ t) sub = true.
Proof.
  induction s as [|c s IH]; simpl; intros H.
  - destruct sub; [destruct t; reflexivity | discriminate].
  - apply orb_true_iff in H as [H|H]; apply orb_true_iff.
    + left. exact (prefix_app_r sub (String c s) t H).
    + right. exact (IH H).
Qed.

Lemma includes_self_app (s t : string) : str_includes (s ++ t) s = true.
Proof.
  pose proof (prefix_app s t) as H. remember (s ++ t) as u eqn:Hu.
  destruct u as [|c u]; exact (proj2 (orb_true_iff _ _) (or_introl H)).
Qed.

Lemma includes_empty (sub : string) : str_includes "" sub = true -> sub = "".
Proof. destruct sub; simpl; [reflexivity | discriminate]. Qed.

Lemma str_app_assoc (a b c : string) : (a ++ b) ++ c = a ++ b ++ c.
Proof. induction a as [|x a IH]; simpl; [reflexivity | rewrite IH; reflexivity]. Qed.

Lemma includes_mid (a b c : string) : str_includes (a ++ b ++ c) b = true.
Proof. apply includes_app_l. apply includes_self_app. Qed.

Lemma snd_calls {A} (m : A * list request) (x : request) :
  snd (let '(r, calls) := m in (r, x :: calls)) = x :: snd m.
Proof. destruct m; reflexivity. Qed.

Lemma list_base_url_params (aff : string) :
  str_includes (list_base_url aff) ("affiliate_id=" ++ aff) = true /\
  str_includes (list_base_url aff) "limit=10" = true /\
  str_includes (list_base_url aff) "status=active" = true /\
  str_includes (list_base_url aff) "visibility=public" = true.
Proof.
  unfold list_base_url.
  change "https://api.eflow.team/v1/networks/offers?affiliate_id=" with
    ("https://api.eflow.team/v1/networks/offers?" ++ "affiliate_id=").
  rewrite !str_app_assoc.
  split; [rewrite <- (str_app_assoc "affiliate_id=" aff); apply includes_mid|].
  split; [|split]; do 3 apply includes_app_l; reflexivity.
Qed.

Lemma forallb_lookup {A} (f : A -> bool) (l : list A) (i : nat) (x : A) :
  forallb f l = true -> l !! i = Some x -> f x = true.
Proof.
  revert i. induction l as [|y l IH]; intros [|i] H Hi; simpl in *; try discriminate.
  - injection Hi as <-. apply andb_prop in H. tauto.
  - apply andb_prop in H as [_ H]. exact (IH i H Hi).
Qed.

(* ------------------------------------------------------------------ *)
(** * Claims *)
(* ------------------------------------------------------------------ *)

(** C1: when the list call succeeds with N offers (offer records: objects
    whose network_offer_id converts to a string, as every number or
    string id does), the handler answers 200 with an offers array of
    length N in the list order; the offer at position i is merged with its
    detail fields exactly when its detail lookup succeeded and is the
    input offer itself otherwise; this holds for every order in which the
    detail lookups complete. *)
Theorem enriched_offers_by_position (up : upstream) (rt : runtime) (q : query)
    (aff : string) (st : Z) (txt : string) (data : jval) (offers : list jval) :
  q_affiliate_id q = Some aff -> aff <> "" -> str_includes aff "{" = false ->
  type_ok (q_type q) ->
  up (ListOffers (list_url aff (q_type q))) = FResp st txt (Some data) ->
  resp_ok st = true ->
  get_prop data "offers" = Some (JArr offers) ->
  forallb offer_ok offers = true ->
  Permutation (schedule rt) (seq 0 (length offers)) ->
  exists out,
    fst (handle up rt q) = reply 200 (success_body rt out) /\
    length out = length offers /\
    forall i o, offers !! i = Some o ->
      out !! i = Some (match detail_fields up aff o with
                       | Some (dp, cur) => merge_detail o dp cur
                       | None => o
                       end).
Proof.
  intros Ha Hne Hbr Ht Hup Hok Hof Hobj Hp.
  exists (map (enriched_form up aff) offers).
  rewrite (handle_success up rt q aff st txt data offers (length offers)
             Ha Hne Hbr Ht Hup Hok Hof Hobj Hp (le_n _)).
  split; [reflexivity|]. split; [apply length_map|].
  intros i o Hi. rewrite list_lookup_fmap, Hi. reflexivity.
Qed.

Lemma enriched_offers_by_position_witness :
  exists out,
    fst (handle sample_up (rt_at [1; 0] "T") (q_af123 (Some "top"))) =
      reply 200 (success_body (rt_at [1; 0] "T") out) /\
    length out = 2 /\
    forall i o, [offer1; offer2] !! i = Some o ->
      out !! i = Some (match detail_fields sample_up "af123" o with
                       | Some (dp, cur) => merge_detail o dp cur
                       | None => o
                       end).
Proof.
  apply (enriched_offers_by_position sample_up (rt_at [1; 0] "T") (q_af123 (Some "top"))
           "af123" 200 "" (JObj [("offers", JArr [offer1; offer2])]) [offer1; offer2]).
  - reflexivity.
  - discriminate.
  - reflexivity.
  - right. left. reflexivity.
  - reflexivity.
  - reflexivity.
  - reflexivity.
  - reflexivity.
  - simpl. apply perm_swap.
Defined.

(** C5: without affiliate_id the handler answers 200 with the
    operational-status acknowledgment, whatever type is, and issues no
    upstream call. *)
Theorem status_probe_without_affiliate (up : upstream) (rt : runtime) (t : option string) :
  handle up rt {| q_type := t; q_affiliate_id := None |} =
  (reply 200 operational_body, []).
Proof. reflexivity. Qed.

(** C10: an affiliate_id equal to the empty string takes the status-probe
    path too: 200 with the operational message, no validation error, no
    upstream call. *)
Theorem status_probe_empty_affiliate (up : upstream) (rt : runtime) (t : option string) :
  handle up rt {| q_type := t; q_affiliate_id := Some "" |} =
  (reply 200 operational_body, []).
Proof. reflexivity. Qed.

(** C7: an affiliate_id containing '{' is answered 400 with the
    invalid-affiliate_id body {error, message, details: {received,
    expected}} whose details.received is the supplied value, and no
    upstream call is issued. *)
Theorem brace_affiliate_rejected (up : upstream) (rt : runtime) (t : option string)
    (aff : string) :
  str_includes aff "{" = true ->
  handle up rt {| q_type := t; q_affiliate_id := Some aff |} =
    (reply 400 (invalid_affiliate_body aff), []) /\
  invalid_affiliate_body aff =
    JObj [("error", JStr "Invalid request");
          ("message", JStr "Valid affiliate_id is required");
          ("details", JObj [("received", JStr aff);
                            ("expected", JStr "Non-empty string without special characters")])].
Proof.
  intros H. split; [|reflexivity].
  destruct aff as [|c s]; [discriminate|].
  unfold handle. cbn [q_affiliate_id]. rewrite H. reflexivity.
Qed.

Lemma brace_affiliate_rejected_witness :
  handle sample_up (rt_at [] "T") {| q_type := Some "top"; q_affiliate_id := Some "{aff}" |} =
    (reply 400 (invalid_affiliate_body "{aff}"), []) /\
  invalid_affiliate_body "{aff}" =
    JObj [("error", JStr "Invalid request");
          ("message", JStr "Valid affiliate_id is required");
          ("details", JObj [("received", JStr "{aff}");
                            ("expected", JStr "Non-empty string without special characters")])].
Proof. apply brace_affiliate_rejected. reflexivity. Defined.

(** C8: the list call issued for a valid request is the list URL, which
    carries affiliate_id=<the supplied id>, limit=10, status=active and
    visibility=public; type=top appends exactly
    &sort_by=payout&sort_direction=desc, type=latest appends exactly
    &sort_by=created_at&sort_direction=desc, and without type nothing is
    appended to the base URL. *)
Theorem list_call_url (up : upstream) (rt : runtime) (q : query) (aff : string) :
  q_affiliate_id q = Some aff -> aff <> "" -> str_includes aff "{" = false ->
  type_ok (q_type q) ->
  (exists rest, snd (handle up rt q) = ListOffers (list_url aff (q_type q)) :: rest) /\
  str_includes (list_url aff (q_type q)) ("affiliate_id=" ++ aff) = true /\
  str_includes (list_url aff (q_type q)) "limit=10" = true /\
  str_includes (list_url aff (q_type q)) "status=active" = true /\
  str_includes (list_url aff (q_type q)) "visibility=public" = true /\
  (q_type q = Some "top" ->
     list_url aff (q_type q) = list_base_url aff ++ "&sort_by=payout&sort_direction=desc") /\
  (q_type q = Some "latest" ->
     list_url aff (q_type q) = list_base_url aff ++ "&sort_by=created_at&sort_direction=desc") /\
  (q_type q = None -> list_url aff (q_type q) = list_base_url aff).
Proof.
  intros Ha Hne Hbr Ht. split.
  - rewrite (handle_valid up rt q aff Ha Hne Hbr Ht). unfold fetch_offers.
    rewrite snd_calls. eexists. reflexivity.
  - destruct (list_base_url_params aff) as [H1 [H2 [H3 H4]]].
    destruct Ht as [Ht|[Ht|Ht]]; rewrite Ht.
    + change (list_url aff None) with (list_base_url aff).
      refine (conj H1 (conj H2 (conj H3 (conj H4 _)))).
      split; [discriminate|]. split; [discriminate | reflexivity].
    + change (list_url aff (Some "top")) with
        (list_base_url aff ++ "&sort_by=payout&sort_direction=desc").
      refine (conj (includes_app_r _ _ _ H1) (conj (includes_app_r _ _ _ H2)
               (conj (includes_app_r _ _ _ H3) (conj (includes_app_r _ _ _ H4) _)))).
      split; [reflexivity|]. split; discriminate.
    + change (list_url aff (Some "latest")) with
        (list_base_url aff ++ "&sort_by=created_at&sort_direction=desc").
      refine (conj (includes_app_r _ _ _ H1) (conj (includes_app_r _ _ _ H2)
               (conj (includes_app_r _ _ _ H3) (conj (includes_app_r _ _ _ H4) _)))).
      split; [discriminate|]. split; [reflexivity | discriminate].
Qed.

Lemma list_call_url_witness :
  (exists rest, snd (handle sample_up (rt_at [1; 0] "T") (q_af123 (Some "top"))) =
     ListOffers (list_url "af123" (Some "top")) :: rest) /\
  str_includes (list_url "af123" (Some "top")) ("affiliate_id=" ++ "af123") = true /\
  str_includes (list_url "af123" (Some "top")) "limit=10" = true /\
  str_includes (list_url "af123" (Some "top")) "status=active" = true /\
  str_includes (list_url "af123" (Some "top")) "visibility=public" = true /\
  (Some "top" = Some "top" ->
     list_url "af123" (Some "top") = list_base_url "af123" ++ "&sort_by=payout&sort_direction=desc") /\
  (Some "top" = Some "latest" ->
     list_url "af123" (Some "top") = list_base_url "af123" ++ "&sort_by=created_at&sort_direction=desc") /\
  (Some "top" = None -> list_url "af123" (Some "top") = list_base_url "af123").
Proof.
  apply (list_call_url sample_up (rt_at [1; 0] "T") (q_af123 (Some "top")) "af123").
  - reflexivity.
  - discriminate.
  - reflexivity.
  - right. left. reflexivity.
Defined.

(** C6, as stated, fails: an empty type ("type=") is present and neither
    top nor latest, yet the request is not rejected. *)
Lemma empty_type_not_rejected :
  "" <> "top" /\ "" <> "latest" /\
  resp_status (fst (handle sample_up (rt_at [0; 1] "T")
                      {| q_type := Some ""; q_affiliate_id := Some "af123" |})) = Some 200%Z.
Proof. split; [discriminate|]. split; [discriminate|]. reflexivity. Qed.

(** C6 (amended): once affiliate_id is present, non-empty and free of '{',
    a non-empty type other than top and latest is answered 400 with the
    invalid-type message and no upstream call; an empty type is treated
    as an absent one. *)
Theorem invalid_type_rejected (up : upstream) (rt : runtime) (aff t : string) :
  aff <> "" -> str_includes aff "{" = false ->
  t <> "" -> t <> "top" -> t <> "latest" ->
  handle up rt {| q_type := Some t; q_affiliate_id := Some aff |} =
    (reply 400 invalid_type_body, []) /\
  handle up rt {| q_type := Some ""; q_affiliate_id := Some aff |} =
    handle up rt {| q_type := None; q_affiliate_id := Some aff |}.
Proof.
  intros Hne Hbr H0 H1 H2.
  assert (Hr : truthy (JStr t) && negb (list_includes ["top"; "latest"] t) = true).
  { unfold truthy, list_includes. simpl.
    rewrite (proj2 (String.eqb_neq _ _) H0), (proj2 (String.eqb_neq _ _) H1),
      (proj2 (String.eqb_neq _ _) H2). reflexivity. }
  destruct aff as [|c s0]; [congruence|]. split.
  - unfold handle. cbn [q_affiliate_id q_type]. rewrite Hbr, Hr. reflexivity.
  - unfold handle. cbn [q_affiliate_id q_type]. rewrite Hbr. reflexivity.
Qed.

Lemma invalid_type_rejected_witness :
  handle sample_up (rt_at [] "T") {| q_type := Some "best"; q_affiliate_id := Some "af123" |} =
    (reply 400 invalid_type_body, []) /\
  handle sample_up (rt_at [] "T") {| q_type := Some ""; q_affiliate_id := Some "af123" |} =
    handle sample_up (rt_at [] "T") {| q_type := None; q_affiliate_id := Some "af123" |}.
Proof. apply invalid_type_rejected; [discriminate | reflexivity | discriminate..]. Defined.

(** C4, as stated, fails: when the list call answers 500, the 502 body
    carries the raw upstream text but not the upstream status. *)
Lemma bad_gateway_body_lacks_status :
  handle failing_up (rt_at [] "T") (q_af123 None) =
    (reply 502 (bad_gateway_body "boom"), [ListOffers (list_url "af123" None)]) /\
  forall k, body_field (fst (handle failing_up (rt_at [] "T") (q_af123 None))) k <> JNum (inject_Z 500) /\
            body_field (fst (handle failing_up (rt_at [] "T") (q_af123 None))) k <> JStr "500".
Proof.
  split; [reflexivity|]. intros k.
  change (body_field (fst (handle failing_up (rt_at [] "T") (q_af123 None))) k)
    with (obj_get k [("error", JStr "Bad Gateway");
                     ("message", JStr "Failed to fetch offers from Everflow");
                     ("details", JStr "boom")]).
  simpl. destruct (String.eqb k "error"); [split; discriminate|].
  destruct (String.eqb k "message"); [split; discriminate|].
  destruct (String.eqb k "details"); split; discriminate.
Qed.

(** C4 (amended): when the list call of a valid request answers with a
    non-success status, the handler answers 502 with
    {error: "Bad Gateway", message, details: <raw upstream text>} (the
    upstream status itself is not in the body), after exactly that one
    upstream call: no retry and no detail lookup. *)
Theorem list_failure_bad_gateway (up : upstream) (rt : runtime) (q : query) (aff : string)
    (st : Z) (txt : string) (js : option jval) :
  q_affiliate_id q = Some aff -> aff <> "" -> str_includes aff "{" = false ->
  type_ok (q_type q) ->
  up (ListOffers (list_url aff (q_type q))) = FResp st txt js ->
  resp_ok st = false ->
  handle up rt q =
    (reply 502 (JObj [("error", JStr "Bad Gateway");
                      ("message", JStr "Failed to fetch offers from Everflow");
                      ("details", JStr txt)]),
     [ListOffers (list_url aff (q_type q))]).
Proof.
  intros Ha Hne Hbr Ht Hup Hok.
  rewrite (handle_valid up rt q aff Ha Hne Hbr Ht).
  unfold fetch_offers. rewrite Hup, Hok. reflexivity.
Qed.

Lemma list_failure_bad_gateway_witness :
  handle failing_up (rt_at [] "T") (q_af123 None) =
    (reply 502 (JObj [("error", JStr "Bad Gateway");
                      ("message", JStr "Failed to fetch offers from Everflow");
                      ("details", JStr "boom")]),
     [ListOffers (list_url "af123" None)]).
Proof.
  apply (list_failure_bad_gateway failing_up (rt_at [] "T") (q_af123 None) "af123" 500 "boom" None).
  - reflexivity.
  - discriminate.
  - reflexivity.
  - left. reflexivity.
  - reflexivity.
  - reflexivity.
Defined.

(** C2, as stated, fails: a detail response whose default_payout is
    present but 0 still yields "N/A". *)
Lemma zero_payout_replaced :
  get_prop (JObj [("default_payout", JNum 0); ("currency", JStr "USD")]) "default_payout"
    = Some (JNum 0) /\
  enrich_offer zero_payout_up "af123" offer1 =
    (Fulfilled (JObj [("network_offer_id", JNum 1); ("name", JStr "A");
                      ("default_payout", JStr "N/A"); ("currency", JStr "USD")]),
     [OfferDetail (JNum 1) "af123"]).
Proof. split; reflexivity. Qed.

(** C2 (amended): for an offer object whose detail lookup is made (its
    network_offer_id converts to a string) and succeeds (ok status, body
    parsed to a value other than null), the enriched offer
    has every field of the offer unchanged except default_payout and
    currency, and exactly the offer's keys plus these two;
    default_payout is the detail's default_payout when it is truthy and
    "N/A" otherwise (missing, null, false, 0 or ""), currency is the
    detail's currency when it is truthy and "" otherwise. *)
Theorem detail_merge_fields (up : upstream) (aff : string) (fs : list (string * jval))
    (st : Z) (txt : string) (d dp cur : jval) :
  tostring_throws (obj_get "network_offer_id" fs) = false ->
  up (OfferDetail (obj_get "network_offer_id" fs) aff) = FResp st txt (Some d) ->
  resp_ok st = true ->
  get_prop d "default_payout" = Some dp ->
  get_prop d "currency" = Some cur ->
  exists fs',
    fst (enrich_offer up aff (JObj fs)) = Fulfilled (JObj fs') /\
    (forall k, obj_get k fs' =
       if String.eqb k "default_payout" then (if truthy dp then dp else JStr "N/A")
       else if String.eqb k "currency" then (if truthy cur then cur else JStr "")
       else obj_get k fs) /\
    (forall k, In k (map fst fs') <->
       In k (map fst fs) \/ k = "default_payout" \/ k = "currency").
Proof.
  intros Hid Hup Hok Hdp Hcur.
  exists (obj_set "currency" (js_or cur (JStr ""))
            (obj_set "default_payout" (js_or dp (JStr "N/A")) fs)).
  split; [|split].
  - unfold enrich_offer. simpl. rewrite Hid, Hup, Hok. simpl. rewrite Hdp, Hcur. reflexivity.
  - intros k. destruct (String.eqb_spec k "default_payout") as [->|H1].
    + rewrite obj_get_set_ne by discriminate. rewrite obj_get_set_eq. reflexivity.
    + destruct (String.eqb_spec k "currency") as [->|H2].
      * rewrite obj_get_set_eq. reflexivity.
      * rewrite !obj_get_set_ne by assumption. reflexivity.
  - intros k. rewrite !keys_set. tauto.
Qed.

Lemma detail_merge_fields_witness :
  exists fs',
    fst (enrich_offer sample_up "af123" offer1) = Fulfilled (JObj fs') /\
    (forall k, obj_get k fs' =
       if String.eqb k "default_payout" then (if truthy (JNum 5) then JNum 5 else JStr "N/A")
       else if String.eqb k "currency" then (if truthy (JStr "USD") then JStr "USD" else JStr "")
       else obj_get k [("network_offer_id", JNum 1); ("name", JStr "A")]) /\
    (forall k, In k (map fst fs') <->
       In k (map fst [("network_offer_id", JNum 1); ("name", JStr "A")]) \/
       k = "default_payout" \/ k = "currency").
Proof.
  apply (detail_merge_fields sample_up "af123" [("network_offer_id", JNum 1); ("name", JStr "A")]
           200 "" (JObj [("default_payout", JNum 5); ("currency", JStr "USD")])).
  - reflexivity.
  - reflexivity.
  - reflexivity.
  - reflexivity.
  - reflexivity.
Defined.

(** C3, as stated, fails: the offer whose detail call throws comes back
    without default_payout "N/A" (it has no default_payout at all). *)
Lemma network_error_offer_not_defaulted :
  sample_up (OfferDetail (JNum 2) "af123") = FThrow /\
  fst (handle sample_up (rt_at [1; 0] "T") (q_af123 None)) =
    reply 200 (success_body (rt_at [1; 0] "T")
                 [JObj [("network_offer_id", JNum 1); ("name", JStr "A");
                        ("default_payout", JNum 5); ("currency", JStr "USD")];
                  offer2]) /\
  get_prop offer2 "default_payout" <> Some (JStr "N/A").
Proof. split; [reflexivity|]. split; [reflexivity | discriminate]. Qed.

(** C3 (amended): when the offers are objects whose network_offer_id
    converts to a string and the detail lookup of one offer throws a
    network error, the response is still 200 and that offer appears at
    its position unmodified (no default_payout or currency added). *)
Theorem network_error_offer_unmodified (up : upstream) (rt : runtime) (q : query)
    (aff : string) (st : Z) (txt : string) (data : jval) (offers : list jval)
    (i : nat) (o : jval) :
  q_affiliate_id q = Some aff -> aff <> "" -> str_includes aff "{" = false ->
  type_ok (q_type q) ->
  up (ListOffers (list_url aff (q_type q))) = FResp st txt (Some data) ->
  resp_ok st = true ->
  get_prop data "offers" = Some (JArr offers) ->
  forallb offer_ok offers = true ->
  Permutation (schedule rt) (seq 0 (length offers)) ->
  offers !! i = Some o ->
  up (OfferDetail (offer_id o) aff) = FThrow ->
  exists out,
    fst (handle up rt q) = reply 200 (success_body rt out) /\ out !! i = Some o.
Proof.
  intros Ha Hne Hbr Ht Hup Hok Hof Hobj Hp Hi Hthrow.
  exists (map (enriched_form up aff) offers).
  rewrite (handle_success up rt q aff st txt data offers (length offers)
             Ha Hne Hbr Ht Hup Hok Hof Hobj Hp (le_n _)).
  split; [reflexivity|].
  rewrite list_lookup_fmap, Hi. simpl. f_equal.
  pose proof (forallb_lookup _ _ _ _ Hobj Hi) as Ho.
  destruct o; try discriminate.
  unfold enriched_form, detail_fields. unfold offer_id in Hthrow. simpl in *.
  rewrite Hthrow. reflexivity.
Qed.

Lemma network_error_offer_unmodified_witness :
  exists out,
    fst (handle sample_up (rt_at [1; 0] "T") (q_af123 None)) =
      reply 200 (success_body (rt_at [1; 0] "T") out) /\ out !! 1 = Some offer2.
Proof.
  apply (network_error_offer_unmodified sample_up (rt_at [1; 0] "T") (q_af123 None)
           "af123" 200 "" (JObj [("offers", JArr [offer1; offer2])]) [offer1; offer2] 1 offer2).
  - reflexivity.
  - discriminate.
  - reflexivity.
  - left. reflexivity.
  - reflexivity.
  - reflexivity.
  - reflexivity.
  - reflexivity.
  - simpl. apply perm_swap.
  - reflexivity.
  - reflexivity.
Defined.

(** C9, as stated, fails: two executions of the same request against the
    same upstream, at two instants, give different bodies (the envelope's
    timestamp). *)
Lemma repeated_request_bodies_differ :
  fst (handle sample_up (rt_at [0; 1] "2026-01-01T00:00:00.000Z") (q_af123 None)) <>
  fst (handle sample_up (rt_at [0; 1] "2026-01-01T00:00:01.000Z") (q_af123 None)).
Proof. vm_compute. discriminate. Qed.

(** C9 (amended): two executions of a request against the same upstream,
    whichever order their detail lookups complete in, issue the same
    upstream calls and give the same response, except that on the success
    path the two envelopes carry the same offers and each its own
    _metadata.timestamp (the clock of that execution). *)
Theorem repeated_request_same_up_to_clock (up : upstream) (rt1 rt2 : runtime) (q : query)
    (n : nat) :
  Permutation (schedule rt1) (seq 0 n) -> Permutation (schedule rt2) (seq 0 n) ->
  dev_mode rt1 = dev_mode rt2 -> err_stack rt1 = err_stack rt2 ->
  handle up rt2 q = handle up rt1 q \/
  exists out,
    fst (handle up rt1 q) = reply 200 (success_body rt1 out) /\
    fst (handle up rt2 q) = reply 200 (success_body rt2 out) /\
    snd (handle up rt2 q) = snd (handle up rt1 q).
Proof.
  intros Hp1 Hp2 Hd He.
  assert (Hpa : forall rs, promise_all (schedule rt2) rs = promise_all (schedule rt1) rs).
  { intros rs. rewrite (promise_all_perm rs n _ Hp1), (promise_all_perm rs n _ Hp2).
    reflexivity. }
  assert (Hie : internal_error_body rt2 = internal_error_body rt1).
  { unfold internal_error_body. rewrite Hd, He. reflexivity. }
  unfold handle.
  destruct (q_affiliate_id q) as [[|c s0]|]; try (left; reflexivity).
  destruct (str_includes (String c s0) "{"); [left; reflexivity|].
  destruct (match q_type q with
            | Some t => truthy (JStr t) && negb (list_includes ["top"; "latest"] t)
            | None => false
            end); [left; reflexivity|].
  unfold fetch_offers.
  destruct (up (ListOffers (list_url (String c s0) (q_type q)))) as [|st tx js].
  - left. rewrite Hie. reflexivity.
  - destruct (negb (resp_ok st)); [left; reflexivity|].
    destruct js as [d|]; [|left; rewrite Hie; reflexivity].
    destruct (get_prop d "offers") as [o|]; [|left; rewrite Hie; reflexivity].
    destruct (js_or o (JArr [])) as [| | | | | offers |]; try (left; rewrite Hie; reflexivity).
    unfold enrich_all. rewrite Hpa.
    destruct (promise_all (schedule rt1) _) as [[vs|]|].
    + right. exists vs. split; [reflexivity|]. split; reflexivity.
    + left. rewrite Hie. reflexivity.
    + left. reflexivity.
Qed.

Lemma repeated_request_same_up_to_clock_witness :
  handle sample_up (rt_at [1; 0] "T2") (q_af123 None) =
    handle sample_up (rt_at [0; 1] "T1") (q_af123 None) \/
  exists out,
    fst (handle sample_up (rt_at [0; 1] "T1") (q_af123 None)) =
      reply 200 (success_body (rt_at [0; 1] "T1") out) /\
    fst (handle sample_up (rt_at [1; 0] "T2") (q_af123 None)) =
      reply 200 (success_body (rt_at [1; 0] "T2") out) /\
    snd (handle sample_up (rt_at [1; 0] "T2") (q_af123 None)) =
      snd (handle sample_up (rt_at [0; 1] "T1") (q_af123 None)).
Proof.
  apply (repeated_request_same_up_to_clock sample_up (rt_at [0; 1] "T1") (rt_at [1; 0] "T2")
           (q_af123 None) 2).
  - simpl. reflexivity.
  - simpl. apply perm_swap.
  - reflexivity.
  - reflexivity.
Defined.

(* ------------------------------------------------------------------ *)
(** * Further properties of src/index.js *)
(* ------------------------------------------------------------------ *)

Lemma fold_pa_done (results : list settled) (s : list nat) (st : pa_state) :
  pa_done st <> None -> fold_left (pa_step results) s st = st.
Proof.
  revert st. induction s as [|i s IH]; intros st H; simpl; [reflexivity|].
  unfold pa_step at 2. destruct (pa_done st) eqn:E; [|congruence].
  apply IH. rewrite E. discriminate.
Qed.

Lemma promise_all_nil (s : list nat) : promise_all s [] = Some (PAResolved []).
Proof. unfold promise_all. simpl. rewrite fold_pa_done by discriminate. reflexivity. Qed.

(** When the list call itself throws (network error or the 5 s timeout),
    the handler answers 500 with {error, message, details}, where details
    is the error stack in development mode and undefined otherwise, after
    that single upstream call. *)
Theorem list_throw_internal_error (up : upstream) (rt : runtime) (q : query) (aff : string) :
  q_affiliate_id q = Some aff -> aff <> "" -> str_includes aff "{" = false ->
  type_ok (q_type q) ->
  up (ListOffers (list_url aff (q_type q))) = FThrow ->
  handle up rt q =
    (reply 500 (JObj [("error", JStr "Internal Server Error");
                      ("message", JStr "An unexpected error occurred");
                      ("details", if dev_mode rt then JStr (err_stack rt) else JUndef)]),
     [ListOffers (list_url aff (q_type q))]).
Proof.
  intros Ha Hne Hbr Ht Hup.
  rewrite (handle_valid up rt q aff Ha Hne Hbr Ht). unfold fetch_offers. rewrite Hup.
  reflexivity.
Qed.

Lemma list_throw_internal_error_witness :
  handle throwing_up (rt_at [] "T") (q_af123 None) =
    (reply 500 (JObj [("error", JStr "Internal Server Error");
                      ("message", JStr "An unexpected error occurred");
                      ("details", if dev_mode (rt_at [] "T") then JStr (err_stack (rt_at [] "T"))
                                  else JUndef)]),
     [ListOffers (list_url "af123" None)]).
Proof.
  apply (list_throw_internal_error throwing_up (rt_at [] "T") (q_af123 None) "af123");
    [reflexivity | discriminate | reflexivity | left; reflexivity | reflexivity].
Defined.

(** A successful list response whose body is not JSON, or is JSON null,
    gives 500 (internal error) after the list call alone. *)
Theorem list_body_unreadable (up : upstream) (rt : runtime) (q : query) (aff : string)
    (st : Z) (txt : string) (js : option jval) :
  q_affiliate_id q = Some aff -> aff <> "" -> str_includes aff "{" = false ->
  type_ok (q_type q) ->
  up (ListOffers (list_url aff (q_type q))) = FResp st txt js ->
  resp_ok st = true -> js = None \/ js = Some JNull ->
  handle up rt q = (reply 500 (internal_error_body rt), [ListOffers (list_url aff (q_type q))]).
Proof.
  intros Ha Hne Hbr Ht Hup Hok Hjs.
  rewrite (handle_valid up rt q aff Ha Hne Hbr Ht). unfold fetch_offers. rewrite Hup, Hok.
  destruct Hjs as [-> | ->]; reflexivity.
Qed.

Lemma list_body_unreadable_witness :
  handle (fun _ => FResp 200 "<html>" None) (rt_at [] "T") (q_af123 None) =
    (reply 500 (internal_error_body (rt_at [] "T")), [ListOffers (list_url "af123" None)]).
Proof.
  apply (list_body_unreadable _ _ (q_af123 None) "af123" 200 "<html>" None);
    [reflexivity | discriminate | reflexivity | left; reflexivity | reflexivity
    | reflexivity | left; reflexivity].
Defined.

(** A successful list response whose offers field is missing or falsy
    (data.offers || []) gives 200 with an empty offers array and count 0,
    and no detail lookup, whatever the runtime's completion order. *)
Theorem missing_offers_empty_success (up : upstream) (rt : runtime) (q : query) (aff : string)
    (st : Z) (txt : string) (data v : jval) :
  q_affiliate_id q = Some aff -> aff <> "" -> str_includes aff "{" = false ->
  type_ok (q_type q) ->
  up (ListOffers (list_url aff (q_type q))) = FResp st txt (Some data) ->
  resp_ok st = true -> get_prop data "offers" = Some v -> truthy v = false ->
  handle up rt q = (reply 200 (success_body rt []), [ListOffers (list_url aff (q_type q))]) /\
  success_body rt [] =
    JObj [("status", JStr "success");
          ("data", JObj [("offers", JArr []); ("count", JNum (inject_Z 0));
                         ("_metadata", JObj [("source", JStr "Everflow API");
                                             ("enrichment", JStr "payout_and_currency");
                                             ("timestamp", JStr (now rt))])])].
Proof.
  intros Ha Hne Hbr Ht Hup Hok Hof Hv. split; [|reflexivity].
  rewrite (handle_valid up rt q aff Ha Hne Hbr Ht). unfold fetch_offers. rewrite Hup, Hok.
  simpl. rewrite Hof. unfold js_or. rewrite Hv. unfold enrich_all. simpl.
  rewrite promise_all_nil. reflexivity.
Qed.

Lemma missing_offers_empty_success_witness :
  handle no_offers_up (rt_at [] "T") (q_af123 None) =
    (reply 200 (success_body (rt_at [] "T") []), [ListOffers (list_url "af123" None)]) /\
  success_body (rt_at [] "T") [] =
    JObj [("status", JStr "success");
          ("data", JObj [("offers", JArr []); ("count", JNum (inject_Z 0));
                         ("_metadata", JObj [("source", JStr "Everflow API");
                                             ("enrichment", JStr "payout_and_currency");
                                             ("timestamp", JStr (now (rt_at [] "T")))])])].
Proof.
  apply (missing_offers_empty_success no_offers_up _ (q_af123 None) "af123" 200 "{}" (JObj []) JUndef);
    [reflexivity | discriminate | reflexivity | left; reflexivity | reflexivity
    | reflexivity | reflexivity | reflexivity].
Defined.

(** A truthy offers field that is not an array ([offers.map] is not a
    function) gives 500 after the list call alone. *)
Theorem offers_not_array_internal_error (up : upstream) (rt : runtime) (q : query)
    (aff : string) (st : Z) (txt : string) (data v : jval) :
  q_affiliate_id q = Some aff -> aff <> "" -> str_includes aff "{" = false ->
  type_ok (q_type q) ->
  up (ListOffers (list_url aff (q_type q))) = FResp st txt (Some data) ->
  resp_ok st = true -> get_prop data "offers" = Some v -> truthy v = true ->
  (forall xs, v <> JArr xs) ->
  handle up rt q = (reply 500 (internal_error_body rt), [ListOffers (list_url aff (q_type q))]).
Proof.
  intros Ha Hne Hbr Ht Hup Hok Hof Hv Harr.
  rewrite (handle_valid up rt q aff Ha Hne Hbr Ht). unfold fetch_offers. rewrite Hup, Hok.
  simpl. rewrite Hof. unfold js_or. rewrite Hv.
  destruct v; try reflexivity. exfalso. exact (Harr xs eq_refl).
Qed.

Lemma offers_not_array_internal_error_witness :
  handle (fun _ => FResp 200 "" (Some (JObj [("offers", JStr "none")]))) (rt_at [] "T") (q_af123 None) =
    (reply 500 (internal_error_body (rt_at [] "T")), [ListOffers (list_url "af123" None)]).
Proof.
  apply (offers_not_array_internal_error _ _ (q_af123 None) "af123" 200 ""
           (JObj [("offers", JStr "none")]) (JStr "none"));
    [reflexivity | discriminate | reflexivity | left; reflexivity | reflexivity
    | reflexivity | reflexivity | reflexivity | discriminate].
Defined.

(** An offer that is null makes its callback throw before the try (reading
    offer.network_offer_id), so Promise.all rejects and the whole request
    answers 500, in every completion order. *)
Theorem null_offer_fails_request (up : upstream) (rt : runtime) (q : query) (aff : string)
    (st : Z) (txt : string) (data : jval) (offers : list jval) (i : nat) :
  q_affiliate_id q = Some aff -> aff <> "" -> str_includes aff "{" = false ->
  type_ok (q_type q) ->
  up (ListOffers (list_url aff (q_type q))) = FResp st txt (Some data) ->
  resp_ok st = true ->
  get_prop data "offers" = Some (JArr offers) ->
  Permutation (schedule rt) (seq 0 (length offers)) ->
  offers !! i = Some JNull ->
  fst (handle up rt q) = reply 500 (internal_error_body rt).
Proof.
  intros Ha Hne Hbr Ht Hup Hok Hof Hp Hi.
  rewrite (handle_valid up rt q aff Ha Hne Hbr Ht). unfold fetch_offers. rewrite Hup, Hok.
  simpl. rewrite Hof. simpl. unfold enrich_all.
  rewrite (promise_all_perm _ (length offers) _ Hp).
  unfold pa_expected.
  replace (existsb _ (seq 0 (length offers))) with true; [reflexivity|].
  symmetry. apply existsb_exists. exists i. split.
  - apply in_seq. apply lookup_lt_Some in Hi. lia.
  - rewrite !list_lookup_fmap, Hi. reflexivity.
Qed.

Lemma null_offer_fails_request_witness :
  fst (handle null_offer_up (rt_at [2; 0; 1] "T") (q_af123 None)) =
    reply 500 (internal_error_body (rt_at [2; 0; 1] "T")).
Proof.
  apply (null_offer_fails_request null_offer_up (rt_at [2; 0; 1] "T") (q_af123 None) "af123" 200 ""
           (JObj [("offers", JArr [offer1; JNull; offer2])]) [offer1; JNull; offer2] 1).
  - reflexivity.
  - discriminate.
  - reflexivity.
  - left. reflexivity.
  - reflexivity.
  - reflexivity.
  - reflexivity.
  - simpl. apply (Permutation_cons_app [0; 1] [] 2). reflexivity.
  - reflexivity.
Defined.

(** On the success path (offer objects whose network_offer_id converts to
    a string) the handler issues the list call and then, in list order,
    exactly one detail lookup per offer, for that offer's network_offer_id
    and the same affiliate_id, failing or not. *)
Theorem detail_calls_in_list_order (up : upstream) (rt : runtime) (q : query)
    (aff : string) (st : Z) (txt : string) (data : jval) (offers : list jval) :
  q_affiliate_id q = Some aff -> aff <> "" -> str_includes aff "{" = false ->
  type_ok (q_type q) ->
  up (ListOffers (list_url aff (q_type q))) = FResp st txt (Some data) ->
  resp_ok st = true ->
  get_prop data "offers" = Some (JArr offers) ->
  forallb offer_ok offers = true ->
  Permutation (schedule rt) (seq 0 (length offers)) ->
  snd (handle up rt q) =
    ListOffers (list_url aff (q_type q)) ::
      map (fun o => OfferDetail (obj_get "network_offer_id"
                                   (match o with JObj fs => fs | _ => [] end)) aff) offers.
Proof.
  intros Ha Hne Hbr Ht Hup Hok Hof Hobj Hp.
  rewrite (handle_success up rt q aff st txt data offers (length offers)
             Ha Hne Hbr Ht Hup Hok Hof Hobj Hp (le_n _)).
  simpl. f_equal. apply map_ext_in. intros o Ho.
  assert (Hob : offer_ok o = true) by (rewrite forallb_forall in Hobj; exact (Hobj o Ho)).
  destruct o; try discriminate. reflexivity.
Qed.

Lemma detail_calls_in_list_order_witness :
  snd (handle sample_up (rt_at [1; 0] "T") (q_af123 None)) =
    ListOffers (list_url "af123" None) ::
      map (fun o => OfferDetail (obj_get "network_offer_id"
                                   (match o with JObj fs => fs | _ => [] end)) "af123")
          [offer1; offer2].
Proof.
  apply (detail_calls_in_list_order sample_up (rt_at [1; 0] "T") (q_af123 None) "af123" 200 ""
           (JObj [("offers", JArr [offer1; offer2])]) [offer1; offer2]).
  - reflexivity.
  - discriminate.
  - reflexivity.
  - left. reflexivity.
  - reflexivity.
  - reflexivity.
  - reflexivity.
  - reflexivity.
  - simpl. apply perm_swap.
Defined.

(** Once the detail call is made (the offer's network_offer_id converts
    to a string), each way it can fail (the call throws, a non-success
    status, a body that is not JSON, a JSON null body) leaves the offer
    as it is: the callback fulfils with the offer itself after its one
    detail call. *)
Theorem detail_failure_keeps_offer (up : upstream) (aff : string) (o oid : jval) :
  get_prop o "network_offer_id" = Some oid -> tostring_throws oid = false ->
  (up (OfferDetail oid aff) = FThrow \/
   exists st txt js, up (OfferDetail oid aff) = FResp st txt js /\
     (resp_ok st = false \/ js = None \/ js = Some JNull)) ->
  enrich_offer up aff o = (Fulfilled o, [OfferDetail oid aff]).
Proof.
  intros Hid Hts Hfail. unfold enrich_offer. rewrite Hid, Hts.
  destruct Hfail as [H | [st [txt [js [H Hc]]]]]; rewrite H; [reflexivity|].
  destruct Hc as [Hc | [-> | ->]].
  - rewrite Hc. reflexivity.
  - destruct (negb (resp_ok st)); reflexivity.
  - destruct (negb (resp_ok st)); reflexivity.
Qed.

Lemma detail_failure_keeps_offer_witness :
  enrich_offer (fun _ => FResp 404 "not found" None) "af123" offer1 =
    (Fulfilled offer1, [OfferDetail (JNum 1) "af123"]).
Proof.
  apply detail_failure_keeps_offer; [reflexivity | reflexivity |].
  right. exists 404%Z, "not found", None. split; [reflexivity | left; reflexivity].
Defined.

(* ------------------------------------------------------------------ *)
(** * Further properties of the application routes *)
(* ------------------------------------------------------------------ *)

(** A GET request whose path is neither [/health] nor the offers route
    reaches the 404 handler: status 404, a message naming the path, and
    no upstream call. *)
Theorem unknown_path_not_found (up : upstream) (rt : runtime) (uptime : Q)
    (req : http_request) :
  route_match "/health" (req_path req) = false ->
  route_match "/partner-dashboard/offers" (req_path req) = false ->
  app_main up rt uptime req = (reply 404 (not_found_body (req_path req)), []) /\
  (exists msg, body_field (fst (app_main up rt uptime req)) "message" = JStr msg /\
               str_includes msg (req_path req) = true).
Proof.
  intros Hh Ho. unfold app_main. rewrite Hh, Ho. split; [reflexivity|].
  exists ("The requested resource " ++ req_path req ++ " was not found"). split.
  - reflexivity.
  - apply includes_mid.
Qed.

Lemma unknown_path_not_found_witness :
  app_main sample_up (rt_at [] "T") 0
    {| req_path := "/offers"; req_api_key := None; req_query := q_af123 None |} =
    (reply 404 (not_found_body "/offers"), []) /\
  (exists msg, body_field (fst (app_main sample_up (rt_at [] "T") 0
    {| req_path := "/offers"; req_api_key := None; req_query := q_af123 None |})) "message"
      = JStr msg /\ str_includes msg "/offers" = true).
Proof.
  apply (unknown_path_not_found sample_up (rt_at [] "T") 0
           {| req_path := "/offers"; req_api_key := None; req_query := q_af123 None |});
    reflexivity.
Defined.

(** [GET /health] answers 200 with [everflow_api: 'reachable'] without
    calling the upstream at all, whatever the upstream would do. *)
Theorem health_never_probes_upstream (up : upstream) (rt : runtime) (uptime : Q)
    (req : http_request) :
  route_match "/health" (req_path req) = true ->
  app_main up rt uptime req = (reply 200 (health_body rt uptime), []) /\
  body_field (fst (app_main up rt uptime req)) "everflow_api" = JStr "reachable".
Proof.
  intros Hh. unfold app_main. rewrite Hh. split; reflexivity.
Qed.

Lemma health_never_probes_upstream_witness :
  app_main throwing_up (rt_at [] "T") 5
    {| req_path := "/HEALTH/"; req_api_key := None; req_query := q_af123 None |} =
    (reply 200 (health_body (rt_at [] "T") 5), []) /\
  body_field (fst (app_main throwing_up (rt_at [] "T") 5
    {| req_path := "/HEALTH/"; req_api_key := None; req_query := q_af123 None |}))
    "everflow_api" = JStr "reachable".
Proof.
  apply (health_never_probes_upstream throwing_up (rt_at [] "T") 5
           {| req_path := "/HEALTH/"; req_api_key := None; req_query := q_af123 None |}).
  reflexivity.
Defined.

(* ------------------------------------------------------------------ *)
(** * Properties of the API-key variant (src/unnamed/part_000) *)
(* ------------------------------------------------------------------ *)

Lemma key_gate_refuses (backend_key : option string) (req : http_request) :
  String.prefix "/partner-dashboard/offers" (req_path req) = true ->
  (req_api_key req = None \/ req_api_key req = Some "" \/
   exists k, req_api_key req = Some k /\ backend_key <> Some k) ->
  key_gate backend_key req = false.
Proof.
  intros Hp Hk. unfold key_gate. rewrite Hp.
  destruct Hk as [-> | [-> | [k [-> Hb]]]]; [reflexivity | reflexivity |].
  destruct (String.eqb k ""); [reflexivity|].
  destruct backend_key as [b|]; [|reflexivity].
  apply String.eqb_neq. intros ->. apply Hb. reflexivity.
Qed.

Lemma handle_v0_valid (up : upstream) (rt : runtime) (q : query) (aff : string) :
  q_affiliate_id q = Some aff -> aff <> "" -> str_includes aff "{" = false ->
  handle_v0 up rt q = fetch_offers_v0 up rt aff (list_url aff (q_type q)).
Proof.
  intros Ha Hne Hbr. unfold handle_v0. rewrite Ha.
  destruct aff as [|c s0]; [congruence|]. rewrite Hbr. reflexivity.
Qed.

Lemma list_url_other (aff s : string) :
  s <> "top" -> s <> "latest" -> list_url aff (Some s) = list_base_url aff.
Proof.
  intros Ht Hl. unfold list_url.
  repeat match goal with
         | |- context [match ?x with EmptyString => _ | String _ _ => _ end] =>
             is_var x; destruct x
         | |- context [match ?a with Ascii _ _ _ _ _ _ _ _ => _ end] =>
             is_var a; destruct a
         | |- context [if ?b then _ else _] => is_var b; destruct b
         end; solve [reflexivity | congruence].
Qed.

(** The key check refuses a request on a path starting with
    [/partner-dashboard/offers] that has no [x-api-key], an empty one, or
    one other than [BACKEND_API_KEY]: 403 Unauthorized, and no upstream
    call. *)
Theorem v0_wrong_key_forbidden (backend_key : option string) (up : upstream)
    (rt : runtime) (req : http_request) :
  String.prefix "/partner-dashboard/offers" (req_path req) = true ->
  (req_api_key req = None \/ req_api_key req = Some "" \/
   exists k, req_api_key req = Some k /\ backend_key <> Some k) ->
  app_v0 backend_key up rt req = Some (reply 403 v0_unauthorized_body, []).
Proof.
  intros Hp Hk. unfold app_v0. rewrite (key_gate_refuses backend_key req Hp Hk).
  reflexivity.
Qed.

Lemma v0_wrong_key_forbidden_witness :
  app_v0 (Some "secret") sample_up (rt_at [1; 0] "T")
    {| req_path := "/partner-dashboard/offers"; req_api_key := Some "guess";
       req_query := q_af123 None |} = Some (reply 403 v0_unauthorized_body, []).
Proof.
  apply v0_wrong_key_forbidden; [reflexivity|].
  right. right. exists "guess". split; [reflexivity | discriminate].
Defined.

(** With [BACKEND_API_KEY] unset or empty, no key is accepted: every
    request on a protected path is refused with 403. *)
Theorem v0_unset_backend_key_locks_route (backend_key : option string) (up : upstream)
    (rt : runtime) (req : http_request) :
  backend_key = None \/ backend_key = Some "" ->
  String.prefix "/partner-dashboard/offers" (req_path req) = true ->
  app_v0 backend_key up rt req = Some (reply 403 v0_unauthorized_body, []).
Proof.
  intros Hb Hp. unfold app_v0. rewrite (key_gate_refuses backend_key req Hp); [reflexivity|].
  destruct (req_api_key req) as [k|]; [|left; reflexivity].
  right. destruct (String.eqb_spec k "") as [->|Hk]; [left; reflexivity|].
  right. exists k. split; [reflexivity|].
  destruct Hb as [-> | ->]; [discriminate|]. intros H. inversion H. congruence.
Qed.

Lemma v0_unset_backend_key_locks_route_witness :
  app_v0 None sample_up (rt_at [1; 0] "T")
    {| req_path := "/partner-dashboard/offers"; req_api_key := Some "anything";
       req_query := q_af123 None |} = Some (reply 403 v0_unauthorized_body, []).
Proof.
  apply v0_unset_backend_key_locks_route; [left; reflexivity | reflexivity].
Defined.

(** The key check tests [req.path.startsWith] case-sensitively, while
    Express routes case-insensitively: a path such as
    [/Partner-Dashboard/offers] skips the check and reaches the offers
    handler with any key or none. *)
Theorem v0_case_variant_path_skips_key (backend_key : option string) (up : upstream)
    (rt : runtime) (req : http_request) :
  String.prefix "/partner-dashboard/offers" (req_path req) = false ->
  route_match "/partner-dashboard/offers" (req_path req) = true ->
  app_v0 backend_key up rt req = Some (handle_v0 up rt (req_query req)).
Proof.
  intros Hp Hr. unfold app_v0, key_gate. rewrite Hp, Hr. reflexivity.
Qed.

Lemma v0_case_variant_path_skips_key_witness :
  app_v0 (Some "secret") sample_up (rt_at [1; 0] "T")
    {| req_path := "/Partner-Dashboard/offers"; req_api_key := None;
       req_query := q_af123 None |} = Some (handle_v0 sample_up (rt_at [1; 0] "T") (q_af123 None)).
Proof.
  apply v0_case_variant_path_skips_key; reflexivity.
Defined.

(** The matching non-empty key lets a request on the offers route through
    to the handler. *)
Theorem v0_matching_key_admitted (b : string) (up : upstream) (rt : runtime)
    (req : http_request) :
  b <> "" -> req_api_key req = Some b ->
  route_match "/partner-dashboard/offers" (req_path req) = true ->
  app_v0 (Some b) up rt req = Some (handle_v0 up rt (req_query req)).
Proof.
  intros Hne Hk Hr. unfold app_v0, key_gate. rewrite Hk, Hr.
  rewrite (proj2 (String.eqb_neq b "") Hne), String.eqb_refl.
  destruct (String.prefix _ _); reflexivity.
Qed.

Lemma v0_matching_key_admitted_witness :
  app_v0 (Some "secret") sample_up (rt_at [1; 0] "T")
    {| req_path := "/partner-dashboard/offers/"; req_api_key := Some "secret";
       req_query := q_af123 None |} = Some (handle_v0 sample_up (rt_at [1; 0] "T") (q_af123 None)).
Proof.
  apply v0_matching_key_admitted; [discriminate | reflexivity | reflexivity].
Defined.

(** The variant has no status probe: a missing or empty [affiliate_id],
    or one containing [{], gets 400 and no upstream call. *)
Theorem v0_invalid_affiliate_rejected (up : upstream) (rt : runtime) (q : query) :
  (q_affiliate_id q = None \/ q_affiliate_id q = Some "" \/
   exists a, q_affiliate_id q = Some a /\ str_includes a "{" = true) ->
  handle_v0 up rt q = (reply 400 v0_invalid_affiliate_body, []).
Proof.
  intros H. unfold handle_v0.
  destruct H as [-> | [-> | [a [-> Hb]]]]; [reflexivity | reflexivity |].
  destruct a; [reflexivity|]. rewrite Hb. reflexivity.
Qed.

Lemma v0_invalid_affiliate_rejected_witness :
  handle_v0 sample_up (rt_at [] "T") {| q_type := None; q_affiliate_id := None |} =
    (reply 400 v0_invalid_affiliate_body, []).
Proof.
  apply v0_invalid_affiliate_rejected. left. reflexivity.
Defined.

(** The variant does not validate [type]: any value other than [top] and
    [latest] is accepted and the list call goes to the unsorted URL. *)
Theorem v0_type_unvalidated (up : upstream) (rt : runtime) (q : query) (aff t : string) :
  q_affiliate_id q = Some aff -> aff <> "" -> str_includes aff "{" = false ->
  q_type q = Some t -> t <> "top" -> t <> "latest" ->
  exists rest, snd (handle_v0 up rt q) = ListOffers (list_base_url aff) :: rest.
Proof.
  intros Ha Hne Hbr Ht Htop Hlat.
  rewrite (handle_v0_valid up rt q aff Ha Hne Hbr), Ht, (list_url_other aff t Htop Hlat).
  unfold fetch_offers_v0. rewrite snd_calls. eexists. reflexivity.
Qed.

Lemma v0_type_unvalidated_witness :
  exists rest, snd (handle_v0 sample_up (rt_at [1; 0] "T") (q_af123 (Some "bogus"))) =
    ListOffers (list_base_url "af123") :: rest.
Proof.
  apply (v0_type_unvalidated sample_up (rt_at [1; 0] "T") (q_af123 (Some "bogus")) "af123" "bogus");
    try reflexivity; discriminate.
Defined.

(** A non-success status of the list call is passed through to the
    client with the upstream's text as [details]; nothing else is called. *)
Theorem v0_upstream_status_passed_through (up : upstream) (rt : runtime) (q : query)
    (aff : string) (st : Z) (txt : string) (js : option jval) :
  q_affiliate_id q = Some aff -> aff <> "" -> str_includes aff "{" = false ->
  up (ListOffers (list_url aff (q_type q))) = FResp st txt js ->
  resp_ok st = false ->
  handle_v0 up rt q =
    (reply st (v0_upstream_failed_body txt), [ListOffers (list_url aff (q_type q))]).
Proof.
  intros Ha Hne Hbr Hup Hok.
  rewrite (handle_v0_valid up rt q aff Ha Hne Hbr). unfold fetch_offers_v0.
  rewrite Hup, Hok. reflexivity.
Qed.

Lemma v0_upstream_status_passed_through_witness :
  handle_v0 (fun _ => FResp 401 "bad key" None) (rt_at [] "T") (q_af123 None) =
    (reply 401 (v0_upstream_failed_body "bad key"), [ListOffers (list_url "af123" None)]).
Proof.
  apply (v0_upstream_status_passed_through (fun _ => FResp 401 "bad key" None) (rt_at [] "T")
           (q_af123 None) "af123" 401 "bad key" None); try reflexivity. discriminate.
Defined.

(** A list call that throws, a success body that is not JSON, or a JSON
    null body ends in 500 Internal server error after that one call. *)
Theorem v0_list_failure_internal_error (up : upstream) (rt : runtime) (q : query)
    (aff : string) :
  q_affiliate_id q = Some aff -> aff <> "" -> str_includes aff "{" = false ->
  (up (ListOffers (list_url aff (q_type q))) = FThrow \/
   exists st txt js, up (ListOffers (list_url aff (q_type q))) = FResp st txt js /\
     resp_ok st = true /\ (js = None \/ js = Some JNull)) ->
  handle_v0 up rt q = (reply 500 v0_internal_body, [ListOffers (list_url aff (q_type q))]).
Proof.
  intros Ha Hne Hbr Hf.
  rewrite (handle_v0_valid up rt q aff Ha Hne Hbr). unfold fetch_offers_v0.
  destruct Hf as [H | [st [txt [js [H [Hok [-> | ->]]]]]]]; rewrite H;
    try rewrite Hok; reflexivity.
Qed.

Lemma v0_list_failure_internal_error_witness :
  handle_v0 throwing_up (rt_at [] "T") (q_af123 None) =
    (reply 500 v0_internal_body, [ListOffers (list_url "af123" None)]).
Proof.
  apply v0_list_failure_internal_error; try reflexivity. discriminate. left. reflexivity.
Defined.

(** On a request both handlers accept and whose list call succeeds with
    offer objects whose network_offer_id converts to a string, the variant issues the same calls as the main handler
    and answers with the same enriched offers, bare in [{offers}] rather
    than in the main handler's [{status, data: {offers, count, _metadata}}]. *)
Theorem v0_agrees_with_main_handler (up : upstream) (rt : runtime) (q : query)
    (aff : string) (st : Z) (txt : string) (data : jval) (offers : list jval) :
  q_affiliate_id q = Some aff -> aff <> "" -> str_includes aff "{" = false ->
  type_ok (q_type q) ->
  up (ListOffers (list_url aff (q_type q))) = FResp st txt (Some data) ->
  resp_ok st = true ->
  get_prop data "offers" = Some (JArr offers) ->
  forallb offer_ok offers = true ->
  Permutation (schedule rt) (seq 0 (length offers)) ->
  snd (handle_v0 up rt q) = snd (handle up rt q) /\
  fst (handle_v0 up rt q) = reply 200 (JObj [("offers", JArr (map (enriched_form up aff) offers))]) /\
  body_field (fst (handle up rt q)) "data" =
    JObj [("offers", JArr (map (enriched_form up aff) offers));
          ("count", JNum (inject_Z (Z.of_nat (length offers))));
          ("_metadata", JObj [("source", JStr "Everflow API");
                              ("enrichment", JStr "payout_and_currency");
                              ("timestamp", JStr (now rt))])].
Proof.
  intros Ha Hne Hbr Ht Hup Hok Hof Hobj Hp.
  assert (Hv0 : handle_v0 up rt q =
    (reply 200 (JObj [("offers", JArr (map (enriched_form up aff) offers))]),
     ListOffers (list_url aff (q_type q)) ::
       map (fun o => OfferDetail (offer_id o) aff) offers)).
  { rewrite (handle_v0_valid up rt q aff Ha Hne Hbr).
    unfold fetch_offers_v0. rewrite Hup, Hok. simpl. rewrite Hof. simpl.
    unfold enrich_all_v0.
    rewrite (map_enrich_objects up aff offers Hobj), !map_map. simpl.
    rewrite <- (map_map (enriched_form up aff) Fulfilled).
    rewrite (promise_all_fulfilled _ (length offers) _ Hp) by (rewrite length_map; lia).
    rewrite (concat_singletons (fun o => OfferDetail (offer_id o) aff)).
    reflexivity. }
  rewrite Hv0, (handle_success up rt q aff st txt data offers (length offers)
                  Ha Hne Hbr Ht Hup Hok Hof Hobj Hp (le_n _)).
  split; [reflexivity|]. split; [reflexivity|].
  unfold success_body. simpl. rewrite length_map. reflexivity.
Qed.

Lemma v0_agrees_with_main_handler_witness :
  snd (handle_v0 sample_up (rt_at [1; 0] "T") (q_af123 None)) =
    snd (handle sample_up (rt_at [1; 0] "T") (q_af123 None)) /\
  fst (handle_v0 sample_up (rt_at [1; 0] "T") (q_af123 None)) =
    reply 200 (JObj [("offers", JArr (map (enriched_form sample_up "af123") [offer1; offer2]))]) /\
  body_field (fst (handle sample_up (rt_at [1; 0] "T") (q_af123 None))) "data" =
    JObj [("offers", JArr (map (enriched_form sample_up "af123") [offer1; offer2]));
          ("count", JNum (inject_Z (Z.of_nat (length [offer1; offer2]))));
          ("_metadata", JObj [("source", JStr "Everflow API");
                              ("enrichment", JStr "payout_and_currency");
                              ("timestamp", JStr (now (rt_at [1; 0] "T")))])].
Proof.
  apply (v0_agrees_with_main_handler sample_up (rt_at [1; 0] "T") (q_af123 None) "af123" 200 ""
           (JObj [("offers", JArr [offer1; offer2])]) [offer1; offer2]).
  - reflexivity.
  - discriminate.
  - reflexivity.
  - left. reflexivity.
  - reflexivity.
  - reflexivity.
  - reflexivity.
  - reflexivity.
  - simpl. apply perm_swap.
Defined.

(** An offer whose network_offer_id cannot be converted to a string (an
    object with its own toString key, or an array holding one) makes the
    template literal of the detail URL throw before the try: Promise.all
    rejects and the request answers 500, in every completion order, and
    that offer gets no detail call. *)
Theorem unprintable_offer_id_fails_request (up : upstream) (rt : runtime) (q : query)
    (aff : string) (st : Z) (txt : string) (data : jval) (offers : list jval)
    (i : nat) (o oid : jval) :
  q_affiliate_id q = Some aff -> aff <> "" -> str_includes aff "{" = false ->
  type_ok (q_type q) ->
  up (ListOffers (list_url aff (q_type q))) = FResp st txt (Some data) ->
  resp_ok st = true ->
  get_prop data "offers" = Some (JArr offers) ->
  Permutation (schedule rt) (seq 0 (length offers)) ->
  offers !! i = Some o -> get_prop o "network_offer_id" = Some oid ->
  tostring_throws oid = true ->
  fst (handle up rt q) = reply 500 (internal_error_body rt) /\
  (~ In (OfferDetail oid aff) (concat (map snd (map (enrich_offer up aff) [o])))).
Proof.
  intros Ha Hne Hbr Ht Hup Hok Hof Hp Hi Hid Hts.
  assert (Heo : enrich_offer up aff o = (Rejected, [])).
  { unfold enrich_offer. rewrite Hid, Hts. reflexivity. }
  split.
  - rewrite (handle_valid up rt q aff Ha Hne Hbr Ht). unfold fetch_offers. rewrite Hup, Hok.
    simpl. rewrite Hof. simpl. unfold enrich_all.
    rewrite (promise_all_perm _ (length offers) _ Hp).
    unfold pa_expected.
    replace (existsb _ (seq 0 (length offers))) with true; [reflexivity|].
    symmetry. apply existsb_exists. exists i. split.
    + apply in_seq. apply lookup_lt_Some in Hi. lia.
    + rewrite !list_lookup_fmap, Hi. simpl. rewrite Heo. reflexivity.
  - simpl. rewrite Heo. simpl. tauto.
Qed.

Definition bad_id : jval := JObj [("toString", JNum 1)].

Definition bad_id_up : upstream :=
  fun rq =>
    match rq with
    | ListOffers _ =>
        FResp 200 "" (Some (JObj [("offers", JArr [offer1; JObj [("network_offer_id", bad_id)]])]))
    | OfferDetail _ _ => FResp 404 "" None
    end.

Lemma unprintable_offer_id_fails_request_witness :
  fst (handle bad_id_up (rt_at [1; 0] "T") (q_af123 None)) =
    reply 500 (internal_error_body (rt_at [1; 0] "T")) /\
  (~ In (OfferDetail bad_id "af123")
       (concat (map snd (map (enrich_offer bad_id_up "af123") [JObj [("network_offer_id", bad_id)]])))).
Proof.
  apply (unprintable_offer_id_fails_request bad_id_up (rt_at [1; 0] "T") (q_af123 None) "af123"
           200 "" (JObj [("offers", JArr [offer1; JObj [("network_offer_id", bad_id)]])])
           [offer1; JObj [("network_offer_id", bad_id)]] 1).
  - reflexivity.
  - discriminate.
  - reflexivity.
  - left. reflexivity.
  - reflexivity.
  - reflexivity.
  - reflexivity.
  - simpl. apply perm_swap.
  - reflexivity.
  - reflexivity.
  - reflexivity.
Defined.
